(** * The JotForm API client (jotform.py): request pipeline and key flattening

    A shallow embedding of [JotformAPIClient] and of the parts of the Python
    standard library its request pipeline goes through ([str] methods,
    [pathlib.PurePosixPath], [urllib.parse], [json.dumps]), followed by the
    properties of the pipeline.

    Conventions.
    - A Python [str] is a [string]; its characters are the code points below
      256.  Indices and slice bounds are [Z], with Python's treatment of
      negative and out-of-range bounds written out.
    - A Python value is a [pyval]; a [dict] is an association list in
      insertion order whose keys are strings.
    - An exception is the [Raise] case of [result].
    - The client object is its attribute dictionary; the log and the HTTP
      requests that were issued are a trace of events. *)

From Stdlib Require Import String Ascii List ZArith Lia Bool.
From Stdlib Require Import Numbers.DecimalString.
Import ListNotations.

Open Scope string_scope.
Open Scope Z_scope.

(* ================================================================== *)
(** ** Python strings *)
(* ================================================================== *)

Module Str.

(** [len(s)] *)
Definition len (s : string) : Z := Z.of_nat (String.length s).

Fixpoint drop (n : nat) (s : string) : string :=
  match n, s with
  | O, _ => s
  | S _, EmptyString => EmptyString
  | S n', String _ s' => drop n' s'
  end.

Fixpoint take (n : nat) (s : string) : string :=
  match n, s with
  | O, _ => EmptyString
  | S _, EmptyString => EmptyString
  | S n', String a s' => String a (take n' s')
  end.

(** A slice bound as Python normalises it: a negative bound counts from
    the end, and the result is clamped to [0 .. len s]. *)
Definition bound (s : string) (i : Z) : Z :=
  let i' := if i <? 0 then i + len s else i in
  Z.max 0 (Z.min i' (len s)).

(** [s[lo:hi]] *)
Definition slice (s : string) (lo hi : Z) : string :=
  let l := bound s lo in
  let h := bound s hi in
  take (Z.to_nat (h - l)) (drop (Z.to_nat l) s).

(** [s[lo:]] *)
Definition slice_from (s : string) (lo : Z) : string :=
  drop (Z.to_nat (bound s lo)) s.

(** [s[:hi]] *)
Definition slice_to (s : string) (hi : Z) : string :=
  take (Z.to_nat (bound s hi)) s.

(** Position of the first [c] in [s], if any. *)
Fixpoint index (c : ascii) (s : string) : option nat :=
  match s with
  | EmptyString => None
  | String a s' =>
      if Ascii.eqb a c then Some O
      else match index c s' with
           | Some n => Some (S n)
           | None => None
           end
  end.

(** Position of the last [c] in [s], if any. *)
Fixpoint rindex (c : ascii) (s : string) : option nat :=
  match s with
  | EmptyString => None
  | String a s' =>
      match rindex c s' with
      | Some n => Some (S n)
      | None => if Ascii.eqb a c then Some O else None
      end
  end.

(** [s.find(c)] for a one-character [c]: the index, or [-1]. *)
Definition find (s : string) (c : ascii) : Z :=
  match index c s with
  | Some n => Z.of_nat n
  | None => -1
  end.

(** [s.find(c, start)] *)
Definition find_from (s : string) (c : ascii) (start : Z) : Z :=
  let b := bound s start in
  match index c (drop (Z.to_nat b) s) with
  | Some n => b + Z.of_nat n
  | None => -1
  end.

(** [s.rfind(c)] *)
Definition rfind (s : string) (c : ascii) : Z :=
  match rindex c s with
  | Some n => Z.of_nat n
  | None => -1
  end.

(** [c in s] for a one-character [c]. *)
Definition contains (c : ascii) (s : string) : bool :=
  match index c s with
  | Some _ => true
  | None => false
  end.

(** [s.split(c)]: never empty; [''.split(c) == ['']]. *)
Fixpoint split (s : string) (c : ascii) : list string :=
  match s with
  | EmptyString => [EmptyString]
  | String a s' =>
      if Ascii.eqb a c then EmptyString :: split s' c
      else match split s' c with
           | h :: t => String a h :: t
           | [] => [String a EmptyString]
           end
  end.

(** [s.split(c, 1)] when [c in s]: the text before and after the first
    [c]; [(s, '')] otherwise. *)
Definition split1 (s : string) (c : ascii) : string * string :=
  match index c s with
  | Some n => (take n s, drop (S n) s)
  | None => (s, EmptyString)
  end.

(** [sep.join(l)] *)
Definition join (sep : string) (l : list string) : string :=
  String.concat sep l.

(** [s.lstrip(chars)], the stripped characters given as a predicate. *)
Fixpoint lstrip (p : ascii -> bool) (s : string) : string :=
  match s with
  | EmptyString => EmptyString
  | String a s' => if p a then lstrip p s' else s
  end.

(** [s.rstrip(chars)] *)
Fixpoint rstrip (p : ascii -> bool) (s : string) : string :=
  match s with
  | EmptyString => EmptyString
  | String a s' =>
      match rstrip p s' with
      | EmptyString => if p a then EmptyString else String a EmptyString
      | r => String a r
      end
  end.

(** [s.replace(c, '')] for a character satisfying [p]. *)
Fixpoint remove (p : ascii -> bool) (s : string) : string :=
  match s with
  | EmptyString => EmptyString
  | String a s' => if p a then remove p s' else String a (remove p s')
  end.

Fixpoint forallb (p : ascii -> bool) (s : string) : bool :=
  match s with
  | EmptyString => true
  | String a s' => p a && forallb p s'
  end.

Definition code (a : ascii) : Z := Z.of_nat (nat_of_ascii a).

Definition is_upper (a : ascii) : bool := (65 <=? code a) && (code a <=? 90).
Definition is_lower (a : ascii) : bool := (97 <=? code a) && (code a <=? 122).
Definition is_digit (a : ascii) : bool := (48 <=? code a) && (code a <=? 57).

(** [c.isascii() and c.isalpha()] *)
Definition is_ascii_alpha (a : ascii) : bool := is_upper a || is_lower a.

Definition lower_char (a : ascii) : ascii :=
  if is_upper a then ascii_of_nat (nat_of_ascii a + 32) else a.

(** [s.lower()] on the ASCII letters. *)
Fixpoint lower (s : string) : string :=
  match s with
  | EmptyString => EmptyString
  | String a s' => String (lower_char a) (lower s')
  end.

(** The characters of [s] as one-character strings: what iterating over a
    [str] yields. *)
Fixpoint chars (s : string) : list string :=
  match s with
  | EmptyString => []
  | String a s' => String a EmptyString :: chars s'
  end.

(** [s[i]] for an index already in range. *)
Definition char_at (s : string) (i : nat) : option string :=
  match String.get i s with
  | Some a => Some (String a EmptyString)
  | None => None
  end.

End Str.

(* ================================================================== *)
(** ** Python values, exceptions and dictionaries *)
(* ================================================================== *)

(** The values that travel through the client: [None], booleans, integers,
    strings, lists and dictionaries with string keys (JSON-shaped data).
    Floats are left out: no operation of the client computes with one. *)
#[warnings="-register-all"]
Inductive pyval : Type :=
| VNone : pyval
| VBool : bool -> pyval
| VInt : Z -> pyval
| VStr : string -> pyval
| VList : list pyval -> pyval
| VDict : list (string * pyval) -> pyval.

(** A [dict]: keys in insertion order.  The keys are strings; what the
    code does with a key of another type (a [TypeError] on ["_" in key])
    is outside the model. *)
Definition dict : Type := list (string * pyval).

(** The exceptions the modelled code can raise.  [TransportError] stands
    for whatever [requests] raises (connection failure, invalid header...)
    and [DecodeError] for what [resp.json()] raises on a body that is not
    JSON.  The text a [ValueError] carries abbreviates the message of the
    library (which also prints the offending value): only the class of an
    exception is meant. *)
Inductive exn : Type :=
| ValueError : string -> exn
| TypeError : exn
| KeyError : exn
| IndexError : exn
| AttributeError : exn
| TransportError : string -> exn
| DecodeError : exn.

Inductive result (A : Type) : Type :=
| Ok : A -> result A
| Raise : exn -> result A.

Arguments Ok {A} _.
Arguments Raise {A} _.

Definition rbind {A B : Type} (r : result A) (f : A -> result B) : result B :=
  match r with
  | Ok a => f a
  | Raise e => Raise e
  end.

Declare Scope result_scope.
Delimit Scope result_scope with result.
Notation "x <- r ;; k" := (rbind r (fun x => k))
  (at level 61, r at next level, right associativity) : result_scope.

(** [for x in xs: s = body(x, s)], stopping at the first exception. *)
Fixpoint for_ {A S : Type} (xs : list A) (body : A -> S -> result S) (s : S)
  : result S :=
  match xs with
  | [] => Ok s
  | x :: xs' =>
      match body x s with
      | Ok s' => for_ xs' body s'
      | Raise e => Raise e
      end
  end.

Module Dict.

(** The keys in iteration order: [for k in d]. *)
Definition keys (d : dict) : list string := map fst d.

(** [d.get(k)] where [None] stands for absence: the first binding. *)
Fixpoint get (d : dict) (k : string) : option pyval :=
  match d with
  | [] => None
  | (k', v) :: d' => if String.eqb k' k then Some v else get d' k
  end.

(** [d[k] = v]: an existing key keeps its position and takes the new
    value, a new key goes to the end. *)
Fixpoint set (d : dict) (k : string) (v : pyval) : dict :=
  match d with
  | [] => [(k, v)]
  | (k', v') :: d' =>
      if String.eqb k' k then (k', v) :: d' else (k', v') :: set d' k v
  end.

(** [d[k]] *)
Definition getitem (d : dict) (k : string) : result pyval :=
  match get d k with
  | Some v => Ok v
  | None => Raise KeyError
  end.

(** [d.update(e)] *)
Definition update (d e : dict) : dict :=
  fold_left (fun acc kv => set acc (fst kv) (snd kv)) e d.

(** A dict display [{k1: v1, ...}]: bindings are stored left to right. *)
Definition literal (l : list (string * pyval)) : dict := update [] l.

(** The keys of a Python dict are pairwise distinct. *)
Definition wf (d : dict) : Prop := NoDup (keys d).

Fixpoint mem (k : string) (l : list string) : bool :=
  match l with
  | [] => false
  | k' :: l' => String.eqb k' k || mem k l'
  end.

Fixpoint nodupb (l : list string) : bool :=
  match l with
  | [] => true
  | k :: l' => negb (mem k l') && nodupb l'
  end.

Definition wfb (d : dict) : bool := nodupb (keys d).

End Dict.

Module Py.

(** Truth value testing: [if v:]. *)
Definition truthy (v : pyval) : bool :=
  match v with
  | VNone => false
  | VBool b => b
  | VInt z => negb (z =? 0)
  | VStr s => negb (String.eqb s "")
  | VList l => match l with [] => false | _ => true end
  | VDict d => match d with [] => false | _ => true end
  end.

(** [for x in v]: the keys of a dict, the characters of a string, the
    elements of a list; anything else is not iterable. *)
Definition iter (v : pyval) : result (list pyval) :=
  match v with
  | VDict d => Ok (map VStr (Dict.keys d))
  | VStr s => Ok (map VStr (Str.chars s))
  | VList l => Ok l
  | _ => Raise TypeError
  end.

(** A sequence index as Python resolves it: negative counts from the
    end; out of range raises [IndexError]. *)
Definition seq_index (n : nat) (i : Z) : result nat :=
  let i' := if i <? 0 then i + Z.of_nat n else i in
  if (0 <=? i') && (i' <? Z.of_nat n) then Ok (Z.to_nat i')
  else Raise IndexError.

(** An integer used as an index; [bool] is a subclass of [int]. *)
Definition as_index (k : pyval) : option Z :=
  match k with
  | VInt i => Some i
  | VBool b => Some (if b then 1 else 0)
  | _ => None
  end.

(** [v[k]] *)
Definition getitem (v k : pyval) : result pyval :=
  match v with
  | VDict d =>
      match k with
      | VStr s => Dict.getitem d s
      | VList _ | VDict _ => Raise TypeError
      | _ => Raise KeyError
      end
  | VStr s =>
      match as_index k with
      | Some i =>
          (n <- seq_index (String.length s) i ;;
           match Str.char_at s n with
           | Some c => Ok (VStr c)
           | None => Raise IndexError
           end)%result
      | None => Raise TypeError
      end
  | VList l =>
      match as_index k with
      | Some i =>
          (n <- seq_index (List.length l) i ;;
           match nth_error l n with
           | Some x => Ok x
           | None => Raise IndexError
           end)%result
      | None => Raise TypeError
      end
  | _ => Raise TypeError
  end.

(** The right operand of [str + v]: a [str], or [TypeError]. *)
Definition as_str (v : pyval) : result string :=
  match v with
  | VStr s => Ok s
  | _ => Raise TypeError
  end.

(** [v.get(k)]: only a dict has the method. *)
Definition get_method (v : pyval) (k : string) : result pyval :=
  match v with
  | VDict d =>
      match Dict.get d k with
      | Some x => Ok x
      | None => Ok VNone
      end
  | _ => Raise AttributeError
  end.

End Py.

(* ================================================================== *)
(** ** pathlib: pure POSIX paths *)
(* ================================================================== *)

(** [pathlib.Path(url)] on a POSIX system (CPython 3.11), as far as the
    client uses it: parsing, [name], [suffix], [with_suffix] and [str].  No
    operation touches the file system. *)
Module Pathlib.

Definition sep : ascii := "/"%char.
Definition dot : ascii := "."%char.

(** A parsed path: the root ([''], ['/'] or ['//']) and the components
    after it.  POSIX paths have no drive. *)
Record path : Type := mkpath { root : string; parts : list string }.

Definition is_sep (a : ascii) : bool := Ascii.eqb a sep.

(** [_PosixFlavour.splitroot]: exactly two leading slashes are kept as
    the root ['//'], any other number collapses to ['/']. *)
Definition splitroot (part : string) : string * string :=
  match part with
  | String a _ =>
      if Ascii.eqb a sep then
        let stripped_part := Str.lstrip is_sep part in
        if Str.len part - Str.len stripped_part =? 2
        then ("//", stripped_part)
        else ("/", stripped_part)
      else ("", part)
  | EmptyString => ("", part)
  end.

Definition keep (x : string) : bool :=
  negb (String.eqb x "") && negb (String.eqb x ".").

(** [_Flavour.parse_parts] on a single argument: empty components and
    ['.'] components are dropped. *)
Definition parse_parts (part : string) : path :=
  match part with
  | EmptyString => mkpath "" []
  | _ =>
      let (rt, rel) := splitroot part in
      if Str.contains sep rel
      then mkpath rt (filter keep (Str.split rel sep))
      else mkpath rt (if keep rel then [rel] else [])
  end.

(** [PurePosixPath(s)] *)
Definition Path (s : string) : path := parse_parts s.

(** [p.name]: the final component, [''] when there is none. *)
Definition name (p : path) : string := last (parts p) "".

(** [suffix] of a final component: from its last dot on, unless that dot
    comes first or last. *)
Definition suffix_of (nm : string) : string :=
  let i := Str.rfind nm dot in
  if (0 <? i) && (i <? Str.len nm - 1) then Str.slice_from nm i else "".

(** [p.suffix] *)
Definition suffix (p : path) : string := suffix_of (name p).

(** [p.with_suffix(sfx)] *)
Definition with_suffix (p : path) (sfx : string) : result path :=
  if Str.contains sep sfx then Raise (ValueError "Invalid suffix")
  else if (negb (String.eqb sfx "") && negb (String.prefix "." sfx))
          || String.eqb sfx "."
  then Raise (ValueError "Invalid suffix")
  else
    let nm := name p in
    if String.eqb nm "" then Raise (ValueError "has an empty name")
    else
      let old_suffix := suffix p in
      let nm' :=
        if String.eqb old_suffix "" then nm ++ sfx
        else Str.slice_to nm (- Str.len old_suffix) ++ sfx in
      Ok (mkpath (root p) (removelast (parts p) ++ [nm'])%list).

(** [str(p)] *)
Definition str (p : path) : string :=
  let s := root p ++ Str.join "/" (parts p) in
  if String.eqb s "" then "." else s.

End Pathlib.

(* ================================================================== *)
(** ** urllib.parse *)
(* ================================================================== *)

(** [urlsplit], [urlparse], [urlunsplit], [urlunparse] and [urljoin]
    (CPython 3.11) on [str] arguments with [allow_fragments=True].

    Two checks of [urlsplit] go through modules that are not modelled.  A
    netloc with a bracketed host is validated by [ipaddress]: the model
    raises [ValueError] for every netloc that has a bracket, which is what
    the library does for all of them but well-formed IPv6 literals.  The
    NFKC check of [_checknetloc] cannot fail on code points below 256, so
    it is left out. *)
Module UrlParse.

Definition uses_relative : list string :=
  [""; "ftp"; "http"; "gopher"; "nntp"; "imap"; "wais"; "file"; "https";
   "shttp"; "mms"; "prospero"; "rtsp"; "rtspu"; "sftp"; "svn"; "svn+ssh";
   "ws"; "wss"].

Definition uses_netloc : list string :=
  [""; "ftp"; "http"; "gopher"; "nntp"; "telnet"; "imap"; "wais"; "file";
   "mms"; "https"; "shttp"; "snews"; "prospero"; "rtsp"; "rtspu"; "rsync";
   "svn"; "svn+ssh"; "sftp"; "nfs"; "git"; "git+ssh"; "ws"; "wss"].

Definition uses_params : list string :=
  [""; "ftp"; "hdl"; "prospero"; "http"; "imap"; "https"; "shttp"; "rtsp";
   "rtspu"; "sip"; "sips"; "mms"; "sftp"; "tel"].

Definition member (s : string) (l : list string) : bool :=
  existsb (String.eqb s) l.

Definition scheme_char (a : ascii) : bool :=
  Str.is_lower a || Str.is_upper a || Str.is_digit a
  || Ascii.eqb a "+" || Ascii.eqb a "-" || Ascii.eqb a ".".

(** [_WHATWG_C0_CONTROL_OR_SPACE] *)
Definition c0_control_or_space (a : ascii) : bool := Str.code a <=? 32.

(** [_UNSAFE_URL_BYTES_TO_REMOVE]: tab, carriage return, newline. *)
Definition unsafe_byte (a : ascii) : bool :=
  (Str.code a =? 9) || (Str.code a =? 13) || (Str.code a =? 10).

Record SplitResult : Type := mksplit {
  s_scheme : string; s_netloc : string; s_path : string;
  s_query : string; s_fragment : string }.

Record ParseResult : Type := mkparse {
  scheme : string; netloc : string; path : string;
  params : string; query : string; fragment : string }.

Definition splitnetloc (url : string) (start : Z) : string * string :=
  let delim :=
    fold_left
      (fun delim c =>
         let wdelim := Str.find_from url c start in
         if wdelim >=? 0 then Z.min delim wdelim else delim)
      ["/"%char; "?"%char; "#"%char] (Str.len url) in
  (Str.slice url start delim, Str.slice_from url delim).

Definition urlsplit (url0 scheme0 : string) : result SplitResult :=
  let url := Str.lstrip c0_control_or_space url0 in
  let scheme := Str.rstrip c0_control_or_space
                  (Str.lstrip c0_control_or_space scheme0) in
  let url := Str.remove unsafe_byte url in
  let scheme := Str.remove unsafe_byte scheme in
  let i := Str.find url ":" in
  let '(scheme, url) :=
    if (i >? 0)
       && match url with
          | String a _ => Str.is_ascii_alpha a
          | EmptyString => false
          end
       && Str.forallb scheme_char (Str.slice_to url i)
    then (Str.lower (Str.slice_to url i), Str.slice_from url (i + 1))
    else (scheme, url) in
  (nu <-
     (if String.eqb (Str.slice_to url 2) "//" then
        let (netloc, rest) := splitnetloc url 2 in
        if Str.contains "[" netloc || Str.contains "]" netloc
        then Raise (ValueError "Invalid IPv6 URL")
        else Ok (netloc, rest)
      else Ok ("", url)) ;;
   let '(netloc, url) := nu in
   let '(url, fragment) :=
     if Str.contains "#" url then Str.split1 url "#" else (url, "") in
   let '(url, query) :=
     if Str.contains "?" url then Str.split1 url "?" else (url, "") in
   Ok (mksplit scheme netloc url query fragment))%result.

Definition splitparams (url : string) : string * string :=
  if Str.contains "/" url then
    let i := Str.find_from url ";" (Str.rfind url "/") in
    if i <? 0 then (url, "")
    else (Str.slice_to url i, Str.slice_from url (i + 1))
  else
    let i := Str.find url ";" in
    (Str.slice_to url i, Str.slice_from url (i + 1)).

Definition urlparse (url scheme0 : string) : result ParseResult :=
  (sr <- urlsplit url scheme0 ;;
   let '(url, params) :=
     if member (s_scheme sr) uses_params && Str.contains ";" (s_path sr)
     then splitparams (s_path sr)
     else (s_path sr, "") in
   Ok (mkparse (s_scheme sr) (s_netloc sr) url params
         (s_query sr) (s_fragment sr)))%result.

Definition nonempty (s : string) : bool := negb (String.eqb s "").

Definition urlunsplit (sr : SplitResult) : string :=
  let url := s_path sr in
  let url :=
    if nonempty (s_netloc sr)
       || (nonempty (s_scheme sr) && member (s_scheme sr) uses_netloc
           && negb (String.eqb (Str.slice_to url 2) "//"))
    then
      let url :=
        if nonempty url && negb (String.eqb (Str.slice_to url 1) "/")
        then "/" ++ url else url in
      "//" ++ s_netloc sr ++ url
    else url in
  let url :=
    if nonempty (s_scheme sr) then s_scheme sr ++ ":" ++ url else url in
  let url :=
    if nonempty (s_query sr) then url ++ "?" ++ s_query sr else url in
  if nonempty (s_fragment sr) then url ++ "#" ++ s_fragment sr else url.

Definition urlunparse (pr : ParseResult) : string :=
  let url :=
    if nonempty (params pr) then path pr ++ ";" ++ params pr
    else path pr in
  urlunsplit (mksplit (scheme pr) (netloc pr) url (query pr) (fragment pr)).

(** The loop of [urljoin] that resolves ['.'] and ['..'] segments;
    popping from an empty list is ignored. *)
Definition resolve (segments : list string) : list string :=
  fold_left
    (fun resolved_path seg =>
       if String.eqb seg ".." then removelast resolved_path
       else if String.eqb seg "." then resolved_path
       else (resolved_path ++ [seg])%list)
    segments [].

(** [segments[1:-1] = filter(None, segments[1:-1])] *)
Definition filter_inner (segments : list string) : list string :=
  let n := List.length segments in
  (firstn 1 segments
     ++ filter nonempty (firstn (n - 2) (skipn 1 segments))
     ++ skipn (Nat.max 1 (n - 1)) segments)%list.

Definition urljoin (base url : string) : result string :=
  if String.eqb base "" then Ok url
  else if String.eqb url "" then Ok base
  else
    (b <- urlparse base "" ;;
     u <- urlparse url (scheme b) ;;
     if negb (String.eqb (scheme u) (scheme b))
        || negb (member (scheme u) uses_relative)
     then Ok url
     else if member (scheme u) uses_netloc && nonempty (netloc u)
     then Ok (urlunparse u)
     else
       let netloc' :=
         if member (scheme u) uses_netloc then netloc b else netloc u in
       if negb (nonempty (path u)) && negb (nonempty (params u))
       then
         Ok (urlunparse
               (mkparse (scheme u) netloc' (path b) (params b)
                  (if nonempty (query u) then query u else query b)
                  (fragment u)))
       else
         let base_parts := Str.split (path b) "/" in
         let base_parts :=
           if nonempty (last base_parts "") then removelast base_parts
           else base_parts in
         let segments :=
           if String.eqb (Str.slice_to (path u) 1) "/"
           then Str.split (path u) "/"
           else filter_inner (base_parts ++ Str.split (path u) "/")%list in
         let resolved_path := resolve segments in
         let resolved_path :=
           if String.eqb (last segments "") "."
              || String.eqb (last segments "") ".."
           then (resolved_path ++ [""])%list else resolved_path in
         let joined := Str.join "/" resolved_path in
         Ok (urlunparse
               (mkparse (scheme u) netloc'
                  (if nonempty joined then joined else "/")
                  (params u) (query u) (fragment u))))%result.

End UrlParse.

(* ================================================================== *)
(** ** json.dumps *)
(* ================================================================== *)

(** [json.dumps(v)] with the default options: [ensure_ascii=True] and the
    separators [', '] and [': ']. *)
Module Json.

Definition quote : string := String (ascii_of_nat 34) EmptyString.

Definition hex_digit (n : Z) : ascii :=
  if n <? 10 then ascii_of_nat (Z.to_nat (48 + n))
  else ascii_of_nat (Z.to_nat (87 + n)).

(** [ESCAPE_DCT] and the [\uXXXX] fallback of [py_encode_basestring_ascii]. *)
Definition escape_char (a : ascii) : string :=
  let c := Str.code a in
  if c =? 34 then "\" ++ quote
  else if c =? 92 then "\\"
  else if c =? 10 then "\n"
  else if c =? 13 then "\r"
  else if c =? 9 then "\t"
  else if c =? 8 then "\b"
  else if c =? 12 then "\f"
  else if (32 <=? c) && (c <=? 126) then String a EmptyString
  else "\u00" ++ String (hex_digit (c / 16))
                   (String (hex_digit (c mod 16)) EmptyString).

Fixpoint escape (s : string) : string :=
  match s with
  | EmptyString => EmptyString
  | String a s' => escape_char a ++ escape s'
  end.

Definition encode_string (s : string) : string := quote ++ escape s ++ quote.

Definition encode_int (z : Z) : string := NilZero.string_of_int (Z.to_int z).

Fixpoint dumps (v : pyval) : string :=
  match v with
  | VNone => "null"
  | VBool true => "true"
  | VBool false => "false"
  | VInt z => encode_int z
  | VStr s => encode_string s
  | VList l => "[" ++ Str.join ", " (map dumps l) ++ "]"
  | VDict d =>
      "{" ++ Str.join ", "
               (map (fun kv =>
                       match kv with
                       | (k, x) => encode_string k ++ ": " ++ dumps x
                       end) d)
          ++ "}"
  end.

End Json.

(* ================================================================== *)
(** ** The world of the client: object state, log and HTTP *)
(* ================================================================== *)

(** What [requests.request(method=, url=, headers=, params=)] is given. *)
Record request : Type := mkrequest {
  r_method : pyval;
  r_url : string;
  r_headers : dict;
  r_params : pyval }.

(** A response object, as far as the client looks at it: the outcome of
    [resp.json()]. *)
Record response : Type := mkresponse { json : result pyval }.

(** The transport and the remote side together: the response to a
    request, or the exception [requests] raises. *)
Definition transport : Type := request -> result response.

(** What an operation does to the outside: a record handed to
    [logger.debug], or a request handed to [requests.request]. *)
Inductive event : Type :=
| LogDebug : pyval -> event
| HttpRequest : request -> event.

(** The state an operation runs in: the attribute dictionary of [self]
    and the events so far, oldest first. *)
Record world : Type := mkworld { self_dict : dict; trace : list event }.

(** A method body: it reads the transport, threads the world and returns a
    value or raises.  The world survives an exception. *)
Definition M (A : Type) : Type := transport -> world -> result A * world.

Definition ret {A : Type} (a : A) : M A := fun _ w => (Ok a, w).

Definition bind {A B : Type} (m : M A) (f : A -> M B) : M B :=
  fun t w =>
    match m t w with
    | (Ok a, w') => f a t w'
    | (Raise e, w') => (Raise e, w')
    end.

Definition lift {A : Type} (r : result A) : M A := fun _ w => (r, w).

Declare Scope M_scope.
Delimit Scope M_scope with M.
Notation "x <- m ;; k" := (bind m (fun x => k))
  (at level 61, m at next level, right associativity) : M_scope.
Notation "m ;;; k" := (bind m (fun _ => k))
  (at level 61, right associativity) : M_scope.

(** [self.name] for an instance attribute. *)
Definition getattr (name : string) : M pyval :=
  fun _ w =>
    match Dict.get (self_dict w) name with
    | Some v => (Ok v, w)
    | None => (Raise AttributeError, w)
    end.

(** [self.name = v] *)
Definition setattr (name : string) (v : pyval) : M unit :=
  fun _ w => (Ok tt, mkworld (Dict.set (self_dict w) name v) (trace w)).

(** [logger.debug(message)]: the module's logger is set to level DEBUG. *)
Definition logger_debug (message : pyval) : M unit :=
  fun _ w => (Ok tt, mkworld (self_dict w) (trace w ++ [LogDebug message])).

(** [requests.request(method=method, url=url, headers=headers,
    params=params)] *)
Definition requests_request (method : pyval) (url : string) (headers : dict)
  (params : pyval) : M response :=
  fun t w =>
    let req := mkrequest method url headers params in
    (t req, mkworld (self_dict w) (trace w ++ [HttpRequest req])).

(** The requests among the events. *)
Fixpoint requests_of (tr : list event) : list request :=
  match tr with
  | [] => []
  | HttpRequest r :: tr' => r :: requests_of tr'
  | LogDebug _ :: tr' => requests_of tr'
  end.

(* ================================================================== *)
(** ** class JotformAPIClient *)
(* ================================================================== *)

Module JotformAPIClient.

Open Scope M_scope.

(** Class attributes.  No method assigns them on an instance. *)
Definition base_url : string := "https://api.jotform.com/".
Definition api_version : string := "v1".

(** [__init__(self, api_key='', debug=False)] *)
Definition __init__ (api_key debug : pyval) : M unit :=
  setattr "api_key" api_key ;;;
  setattr "debug_mode" debug.

(** A client fresh from its constructor, nothing logged or sent yet. *)
Definition new_client (api_key debug : pyval) : world :=
  snd (__init__ api_key debug (fun _ => Raise (TransportError "unused"))
         (mkworld [] [])).

(** [log(self, message)] *)
Definition log (message : pyval) : M unit :=
  debug_mode <- getattr "debug_mode" ;;
  if Py.truthy debug_mode then logger_debug message else ret tt.

(** Line 36: [str(pathlib.Path(url).with_suffix('.json'))] *)
Definition json_endpoint (url : string) : result string :=
  (p <- Pathlib.with_suffix (Pathlib.Path url) ".json" ;;
   Ok (Pathlib.str p))%result.

(** Lines 35-37: the URL the request goes to. *)
Definition request_url (url : string) : result string :=
  (versioned <- UrlParse.urljoin base_url api_version ;;
   endpoint <- json_endpoint url ;;
   UrlParse.urljoin versioned endpoint)%result.

(** [fetch_url(self, url, params=None, method=None)] *)
Definition fetch_url (url : string) (params method : pyval) : M pyval :=
  url <- lift (request_url url) ;;
  log (VStr ("fetching url " ++ url)) ;;;
  (if Py.truthy params then log params else ret tt) ;;;
  api_key <- getattr "api_key" ;;
  let headers := Dict.literal [("apiKey", api_key)] in
  resp <- requests_request method url headers params ;;
  json_response <- lift (json resp) ;;
  lift (Py.get_method json_response "content").

(** [{k: v for k, v in kwargs.items() if k}]: the test is on the key. *)
Definition comprehension (kwargs : dict) : dict :=
  fold_left
    (fun params kv =>
       match kv with
       | (k, v) => if Py.truthy (VStr k) then Dict.set params k v else params
       end)
    kwargs [].

(** [create_conditions(offset, limit, filters, order_by)] (static) *)
Definition create_conditions (offset limit filters order_by : pyval) : dict :=
  let kwargs :=
    Dict.literal
      [("offset", offset); ("limit", limit); ("orderby", order_by)] in
  let params := comprehension kwargs in
  if Py.truthy filters
  then Dict.update params
         (Dict.literal [("filter", VStr (Json.dumps filters))])
  else params.

(** [create_history_query(action, date, sort_by, start_date, end_date)]
    (static) *)
Definition create_history_query
  (action date sort_by start_date end_date : pyval) : dict :=
  let kwargs :=
    Dict.literal
      [("action", action); ("date", date); ("sort_by", sort_by);
       ("startDate", start_date); ("endDate", end_date)] in
  comprehension kwargs.

Definition GET : pyval := VStr "GET".
Definition POST : pyval := VStr "POST".
Definition PUT : pyval := VStr "PUT".
Definition DELETE : pyval := VStr "DELETE".

Definition get_user : M pyval := fetch_url "/user" VNone GET.

Definition get_usage : M pyval := fetch_url "/user/usage" VNone GET.

Definition get_forms (offset limit filters order_by : pyval) : M pyval :=
  let params := create_conditions offset limit filters order_by in
  fetch_url "/user/forms" (VDict params) GET.

Definition get_submissions (offset limit filters order_by : pyval)
  : M pyval :=
  let params := create_conditions offset limit filters order_by in
  fetch_url "/user/submissions" (VDict params) GET.

Definition get_subusers : M pyval := fetch_url "/user/subusers" VNone GET.

Definition get_folders : M pyval := fetch_url "/user/folders" VNone GET.

Definition get_reports : M pyval := fetch_url "/user/reports" VNone GET.

Definition get_settings : M pyval := fetch_url "/user/settings" VNone GET.

Definition update_settings (settings : pyval) : M pyval :=
  fetch_url "/user/settings" settings POST.

Definition get_history (action date sort_by start_date end_date : pyval)
  : M pyval :=
  let params :=
    create_history_query action date sort_by start_date end_date in
  fetch_url "/user/history" (VDict params) GET.

Definition get_form (id : string) : M pyval :=
  fetch_url ("/form/" ++ id) VNone GET.

Definition get_form_questions (id : string) : M pyval :=
  fetch_url ("/form/" ++ id ++ "/questions") VNone GET.

Definition get_form_question (id qid : string) : M pyval :=
  fetch_url ("/form/" ++ id ++ "/question/" ++ qid) VNone GET.

Definition get_form_submissions (id : string)
  (offset limit filters order_by : pyval) : M pyval :=
  let params := create_conditions offset limit filters order_by in
  fetch_url ("/form/" ++ id ++ "/submissions") (VDict params) GET.

(** The loop of [create_form_submission] (lines 269-275) that builds
    [sub]. *)
Definition create_form_submission_sub (submission : dict) : result dict :=
  for_ (Dict.keys submission)
    (fun key sub =>
       if Str.contains "_" key then
         (v <- Dict.getitem submission key ;;
          Ok (Dict.set sub
                ("submission[" ++ Str.slice key 0 (Str.find key "_")
                 ++ "][" ++ Str.slice key (Str.find key "_" + 1) (Str.len key)
                 ++ "]") v))%result
       else
         (v <- Dict.getitem submission key ;;
          Ok (Dict.set sub ("submission[" ++ key ++ "]") v))%result)
    [].

Definition create_form_submission (id : string) (submission : dict)
  : M pyval :=
  sub <- lift (create_form_submission_sub submission) ;;
  fetch_url ("/form/" ++ id ++ "/submissions") (VDict sub) POST.

Definition create_form_submissions (id : string) (submissions : pyval)
  : M pyval :=
  fetch_url ("/form/" ++ id ++ "/submissions") submissions PUT.

Definition get_form_files (formID : string) : M pyval :=
  fetch_url ("/form/" ++ formID ++ "/files") VNone GET.

Definition get_form_webhooks (id : string) : M pyval :=
  fetch_url ("/form/" ++ id ++ "/webhooks") VNone GET.

Definition create_form_webhook (id : string) (webhook_url : pyval)
  : M pyval :=
  let params := Dict.literal [("webhookURL", webhook_url)] in
  fetch_url ("/form/" ++ id ++ "/webhooks") (VDict params) POST.

Definition delete_form_webhook (id webhook_id : string) : M pyval :=
  fetch_url ("/form/" ++ id ++ "/webhooks/" ++ webhook_id) VNone DELETE.

Definition get_submission (sid : string) : M pyval :=
  fetch_url ("/submission/" ++ sid) VNone GET.

Definition get_report (report_id : string) : M pyval :=
  fetch_url ("/report/" ++ report_id) VNone GET.

Definition get_folder (folder_id : string) : M pyval :=
  fetch_url ("/folder/" ++ folder_id) VNone GET.

Definition get_form_properties (form_id : string) : M pyval :=
  fetch_url ("/form/" ++ form_id ++ "/properties") VNone GET.

Definition get_form_property (form_id property_key : string) : M pyval :=
  fetch_url ("/form/" ++ form_id ++ "/properties/" ++ property_key) VNone GET.

Definition get_form_reports (form_id : string) : M pyval :=
  fetch_url ("/form/" ++ form_id ++ "/reports") VNone GET.

Definition create_report (form_id : string) (report : pyval) : M pyval :=
  fetch_url ("/form/" ++ form_id ++ "/reports") report POST.

Definition delete_submission (sid : string) : M pyval :=
  fetch_url ("/submission/" ++ sid) VNone DELETE.

(** The loop of [edit_submission] (lines 455-461) that builds [sub]. *)
Definition edit_submission_sub (submission : dict) : result dict :=
  for_ (Dict.keys submission)
    (fun key sub =>
       if Str.contains "_" key && negb (String.eqb key "created_at") then
         (v <- Dict.getitem submission key ;;
          Ok (Dict.set sub
                ("submission[" ++ Str.slice key 0 (Str.find key "_")
                 ++ "][" ++ Str.slice key (Str.find key "_" + 1) (Str.len key)
                 ++ "]") v))%result
       else
         (v <- Dict.getitem submission key ;;
          Ok (Dict.set sub ("submission[" ++ key ++ "]") v))%result)
    [].

Definition edit_submission (sid : string) (submission : dict) : M pyval :=
  sub <- lift (edit_submission_sub submission) ;;
  fetch_url ("/submission/" ++ sid) (VDict sub) POST.

Definition clone_form (form_id : string) : M pyval :=
  let params := Dict.literal [("method", VStr "post")] in
  fetch_url ("/form/" ++ form_id ++ "/clone") (VDict params) POST.

Definition delete_form_question (form_id qid : string) : M pyval :=
  fetch_url ("/form/" ++ form_id ++ "/question/" ++ qid) VNone DELETE.

(** The loop shared, up to the prefix, by [create_form_question] (lines
    503-506, prefix ['question']), [edit_form_question] (lines 534-537,
    prefix ['question']) and [set_form_properties] (lines 551-554, prefix
    ['properties']): [out[prefix + '[' + key + ']'] = d[key]]. *)
Definition bracket_keys (prefix : string) (d : dict) : result dict :=
  for_ (Dict.keys d)
    (fun key out =>
       (v <- Dict.getitem d key ;;
        Ok (Dict.set out (prefix ++ "[" ++ key ++ "]") v))%result)
    [].

Definition create_form_question_params (question : dict) : result dict :=
  bracket_keys "question" question.

Definition create_form_question (form_id : string) (question : dict)
  : M pyval :=
  params <- lift (create_form_question_params question) ;;
  fetch_url ("/form/" ++ form_id ++ "/questions") (VDict params) POST.

Definition create_form_questions (form_id : string) (questions : pyval)
  : M pyval :=
  fetch_url ("/form/" ++ form_id ++ "/questions") questions PUT.

Definition edit_form_question_question (question_properties : dict)
  : result dict :=
  bracket_keys "question" question_properties.

Definition edit_form_question (form_id qid : string)
  (question_properties : dict) : M pyval :=
  question <- lift (edit_form_question_question question_properties) ;;
  fetch_url ("/form/" ++ form_id ++ "/question/" ++ qid) (VDict question) POST.

Definition set_form_properties_properties (form_properties : dict)
  : result dict :=
  bracket_keys "properties" form_properties.

Definition set_form_properties (form_id : string) (form_properties : dict)
  : M pyval :=
  properties <- lift (set_form_properties_properties form_properties) ;;
  fetch_url ("/form/" ++ form_id ++ "/properties") (VDict properties) POST.

Definition set_multiple_form_properties (form_id : string)
  (form_properties : pyval) : M pyval :=
  fetch_url ("/form/" ++ form_id ++ "/properties") form_properties PUT.

(** The innermost loop of the ['properties'] branch (lines 587-588); its
    variable shadows the [k] of the enclosing loop. *)
Definition create_form_properties (key : string) (value : pyval)
  (params : dict) : result dict :=
  (ks <- Py.iter value ;;
   for_ ks
     (fun k params =>
        x <- Py.getitem value k ;;
        k' <- Py.as_str k ;;
        Ok (Dict.set params (key ++ "[" ++ k' ++ "]") x))
     params)%result.

(** The other branch (lines 590-592): the properties of one field. *)
Definition create_form_field (key : string) (value k : pyval)
  (params : dict) : result dict :=
  (v <- Py.getitem value k ;;
   items <- Py.iter v ;;
   for_ items
     (fun a params =>
        x <- Py.getitem v a ;;
        k' <- Py.as_str k ;;
        a' <- Py.as_str a ;;
        Ok (Dict.set params (key ++ "[" ++ k' ++ "][" ++ a' ++ "]") x))
     params)%result.

(** The loops of [create_form] (lines 581-592) that build [params]. *)
Definition create_form_params (form : dict) : result dict :=
  for_ (Dict.keys form)
    (fun key params =>
       (value <- Dict.getitem form key ;;
        ks <- Py.iter value ;;
        for_ ks
          (fun k params =>
             if String.eqb key "properties"
             then create_form_properties key value params
             else create_form_field key value k params)
          params)%result)
    [].

Definition create_form (form : dict) : M pyval :=
  params <- lift (create_form_params form) ;;
  fetch_url "/user/forms" (VDict params) POST.

Definition create_forms (form : pyval) : M pyval :=
  fetch_url "/user/forms" form PUT.

Definition delete_form (form_id : string) : M pyval :=
  fetch_url ("/form/" ++ form_id) VNone DELETE.

Definition register_user (userDetails : pyval) : M pyval :=
  fetch_url "/user/register" userDetails POST.

Definition login_user (credentials : pyval) : M pyval :=
  fetch_url "/user/login" credentials POST.

Definition logout_user : M pyval := fetch_url "/user/logout" VNone GET.

Definition get_plan (plan_name : string) : M pyval :=
  fetch_url ("/system/plan/" ++ plan_name) VNone GET.

Definition delete_report (reportID : string) : M pyval :=
  fetch_url ("/report/" ++ reportID) VNone DELETE.

(** A call of a public method of the class, with its arguments. *)
Inductive call : Type :=
| Log (message : pyval)
| Fetch_url (url : string) (params method : pyval)
| Create_conditions (offset limit filters order_by : pyval)
| Create_history_query (action date sort_by start_date end_date : pyval)
| Get_user | Get_usage
| Get_forms (offset limit filters order_by : pyval)
| Get_submissions (offset limit filters order_by : pyval)
| Get_subusers | Get_folders | Get_reports | Get_settings
| Update_settings (settings : pyval)
| Get_history (action date sort_by start_date end_date : pyval)
| Get_form (id : string)
| Get_form_questions (id : string)
| Get_form_question (id qid : string)
| Get_form_submissions (id : string) (offset limit filters order_by : pyval)
| Create_form_submission (id : string) (submission : dict)
| Create_form_submissions (id : string) (submissions : pyval)
| Get_form_files (formID : string)
| Get_form_webhooks (id : string)
| Create_form_webhook (id : string) (webhook_url : pyval)
| Delete_form_webhook (id webhook_id : string)
| Get_submission (sid : string)
| Get_report (report_id : string)
| Get_folder (folder_id : string)
| Get_form_properties (form_id : string)
| Get_form_property (form_id property_key : string)
| Get_form_reports (form_id : string)
| Create_report (form_id : string) (report : pyval)
| Delete_submission (sid : string)
| Edit_submission (sid : string) (submission : dict)
| Clone_form (form_id : string)
| Delete_form_question (form_id qid : string)
| Create_form_question (form_id : string) (question : dict)
| Create_form_questions (form_id : string) (questions : pyval)
| Edit_form_question (form_id qid : string) (question_properties : dict)
| Set_form_properties (form_id : string) (form_properties : dict)
| Set_multiple_form_properties (form_id : string) (form_properties : pyval)
| Create_form (form : dict)
| Create_forms (form : pyval)
| Delete_form (form_id : string)
| Register_user (userDetails : pyval)
| Login_user (credentials : pyval)
| Logout_user
| Get_plan (plan_name : string)
| Delete_report (reportID : string).

(** The method a call runs. *)
Definition run (c : call) : M pyval :=
  match c with
  | Log message => log message ;;; ret VNone
  | Fetch_url url params method => fetch_url url params method
  | Create_conditions offset limit filters order_by =>
      ret (VDict (create_conditions offset limit filters order_by))
  | Create_history_query action date sort_by start_date end_date =>
      ret (VDict (create_history_query action date sort_by start_date end_date))
  | Get_user => get_user
  | Get_usage => get_usage
  | Get_forms o l f b => get_forms o l f b
  | Get_submissions o l f b => get_submissions o l f b
  | Get_subusers => get_subusers
  | Get_folders => get_folders
  | Get_reports => get_reports
  | Get_settings => get_settings
  | Update_settings s => update_settings s
  | Get_history a d s b e => get_history a d s b e
  | Get_form id => get_form id
  | Get_form_questions id => get_form_questions id
  | Get_form_question id qid => get_form_question id qid
  | Get_form_submissions id o l f b => get_form_submissions id o l f b
  | Create_form_submission id s => create_form_submission id s
  | Create_form_submissions id s => create_form_submissions id s
  | Get_form_files id => get_form_files id
  | Get_form_webhooks id => get_form_webhooks id
  | Create_form_webhook id u => create_form_webhook id u
  | Delete_form_webhook id wid => delete_form_webhook id wid
  | Get_submission sid => get_submission sid
  | Get_report rid => get_report rid
  | Get_folder fid => get_folder fid
  | Get_form_properties id => get_form_properties id
  | Get_form_property id k => get_form_property id k
  | Get_form_reports id => get_form_reports id
  | Create_report id r => create_report id r
  | Delete_submission sid => delete_submission sid
  | Edit_submission sid s => edit_submission sid s
  | Clone_form id => clone_form id
  | Delete_form_question id qid => delete_form_question id qid
  | Create_form_question id q => create_form_question id q
  | Create_form_questions id q => create_form_questions id q
  | Edit_form_question id qid q => edit_form_question id qid q
  | Set_form_properties id p => set_form_properties id p
  | Set_multiple_form_properties id p => set_multiple_form_properties id p
  | Create_form f => create_form f
  | Create_forms f => create_forms f
  | Delete_form id => delete_form id
  | Register_user u => register_user u
  | Login_user c => login_user c
  | Logout_user => logout_user
  | Get_plan p => get_plan p
  | Delete_report r => delete_report r
  end.

End JotformAPIClient.

(* ================================================================== *)
(** ** Vocabulary of the properties *)
(* ================================================================== *)

Import JotformAPIClient.

(** The parameter name the loop of [create_form_submission] assigns for a
    key of the submission: the subscript expressions of lines 273 and
    275. *)
Definition create_form_submission_name (key : string) : string :=
  if Str.contains "_" key then
    "submission[" ++ Str.slice key 0 (Str.find key "_")
    ++ "][" ++ Str.slice key (Str.find key "_" + 1) (Str.len key) ++ "]"
  else "submission[" ++ key ++ "]".

(** The same for [edit_submission]: lines 459 and 461. *)
Definition edit_submission_name (key : string) : string :=
  if Str.contains "_" key && negb (String.eqb key "created_at") then
    "submission[" ++ Str.slice key 0 (Str.find key "_")
    ++ "][" ++ Str.slice key (Str.find key "_" + 1) (Str.len key) ++ "]"
  else "submission[" ++ key ++ "]".

(** A binding of a dict with its key wrapped as [prefix[key]]. *)
Definition bracketed (prefix : string) (kv : string * pyval)
  : string * pyval :=
  (prefix ++ "[" ++ fst kv ++ "]", snd kv).

(** The shape [create_form] expects: group name -> field name -> property
    mapping, except for the group ['properties'], which maps a property
    name to its value.  Every mapping is a dict, so its keys are
    distinct. *)
Definition two_level_group (kv : string * pyval) : bool :=
  match snd kv with
  | VDict fields =>
      Dict.wfb fields
      && (String.eqb (fst kv) "properties"
          || forallb (fun fp =>
                        match snd fp with
                        | VDict props => Dict.wfb props
                        | _ => false
                        end) fields)
  | _ => false
  end.

Definition two_level (form : dict) : bool :=
  Dict.wfb form && forallb two_level_group form.

(** The flattening of a form as the specification words it: every leaf of
    a group other than ['properties'] under [group[field][property]], every
    entry of ['properties'] under [properties[key]]. *)
Definition field_leaves (group : string) (fp : string * pyval)
  : list (string * pyval) :=
  match snd fp with
  | VDict props =>
      map (fun pv => (group ++ "[" ++ fst fp ++ "][" ++ fst pv ++ "]", snd pv))
        props
  | _ => []
  end.

Definition group_leaves (kv : string * pyval) : list (string * pyval) :=
  match snd kv with
  | VDict fields =>
      if String.eqb (fst kv) "properties"
      then map (bracketed (fst kv)) fields
      else flat_map (field_leaves (fst kv)) fields
  | _ => []
  end.

Definition flat_leaves (form : dict) : list (string * pyval) :=
  flat_map group_leaves form.

(** The final component [with_suffix] writes for a final component [nm]
    and the suffix ['.json']: the old suffix, if there is one, is cut off
    before the new one is appended. *)
Definition new_name (nm : string) : string :=
  if String.eqb (Pathlib.suffix_of nm) "" then nm ++ ".json"
  else Str.slice_to nm (- Str.len (Pathlib.suffix_of nm)) ++ ".json".

(** A component as parsing leaves it: not empty, not ['.'], without a
    slash. *)
Definition good_part (x : string) : Prop :=
  x <> "" /\ x <> "." /\ Str.index Pathlib.sep x = None.

(** A parsed path: one of the three roots, and good components. *)
Definition good_path (p : Pathlib.path) : Prop :=
  (Pathlib.root p = "" \/ Pathlib.root p = "/" \/ Pathlib.root p = "//")
  /\ Forall good_part (Pathlib.parts p).

(** A character of an identifier: an ASCII letter or digit. *)
Definition alnum_char (a : ascii) : bool :=
  Str.is_digit a || Str.is_lower a || Str.is_upper a.

(** An identifier as the provider issues them (form, submission, report
    and folder IDs are digit strings): not empty, letters and digits
    only. *)
Definition plain_id (id : string) : bool :=
  negb (String.eqb id "") && Str.forallb alnum_char id.

(** World and result of running a method body. *)
Definition result_of {A : Type} (m : M A) (t : transport) (w : world)
  : result A := fst (m t w).

Definition world_after {A : Type} (m : M A) (t : transport) (w : world)
  : world := snd (m t w).

(** A method body that leaves the attributes of [self] as they were,
    whatever it returns or raises. *)
Definition preserves_self {A : Type} (m : M A) : Prop :=
  forall t w, self_dict (snd (m t w)) = self_dict w.

(** The records handed to the logger, among the events. *)
Fixpoint logs_of (tr : list event) : list pyval :=
  match tr with
  | [] => []
  | LogDebug m :: tr' => m :: logs_of tr'
  | HttpRequest _ :: tr' => logs_of tr'
  end.

(** The calls that go to the network: all but [log] and the two static
    helpers. *)
Definition network_call (c : call) : bool :=
  match c with
  | Log _ => false
  | Create_conditions _ _ _ _ => false
  | Create_history_query _ _ _ _ _ => false
  | _ => true
  end.

(** A key without a square bracket. *)
Definition bracket_free (key : string) : bool :=
  negb (Str.contains "[" key) && negb (Str.contains "]" key).

(** A value that [for x in v] cannot iterate over. *)
Definition not_iterable (v : pyval) : bool :=
  match v with
  | VNone | VBool _ | VInt _ => true
  | _ => false
  end.

(** Two clients that agree on the API key and on the requests sent so far
    and both have a debug flag; the flags and the logs may differ. *)
Definition same_but_log (w1 w2 : world) : Prop :=
  Dict.get (self_dict w1) "api_key" = Dict.get (self_dict w2) "api_key"
  /\ (Dict.get (self_dict w1) "debug_mode" = None
      <-> Dict.get (self_dict w2) "debug_mode" = None)
  /\ requests_of (trace w1) = requests_of (trace w2).

(** A method body whose result and requests do not depend on the debug
    flag or on the log. *)
Definition log_blind {A : Type} (m : M A) : Prop :=
  forall t w1 w2,
    same_but_log w1 w2 ->
    fst (m t w1) = fst (m t w2)
    /\ same_but_log (snd (m t w1)) (snd (m t w2)).

(** A resource path made of the given segments: [/s1/s2/.../sn]. *)
Definition resource_path (segs : list string) : string :=
  "/" ++ Str.join "/" segs.

(** A character of a resource path of plain segments, suffix included. *)
Definition path_char (a : ascii) : bool :=
  alnum_char a || Ascii.eqb a "/" || Ascii.eqb a ".".

(* ================================================================== *)
(** ** Dictionaries and loops *)
(* ================================================================== *)

Lemma get_set (d : dict) (k k' : string) (v : pyval) :
  Dict.get (Dict.set d k v) k' =
  if String.eqb k k' then Some v else Dict.get d k'.
Proof.
  induction d as [|[k0 v0] d IH]; simpl.
  - reflexivity.
  - destruct (String.eqb k0 k) eqn:E0; simpl.
    + apply String.eqb_eq in E0; subst k0.
      destruct (String.eqb k k'); reflexivity.
    + destruct (String.eqb k0 k') eqn:E1.
      * apply String.eqb_eq in E1; subst k0. rewrite String.eqb_sym, E0.
        reflexivity.
      * exact IH.
Qed.

Lemma get_app (l1 l2 : dict) (k : string) :
  Dict.get (l1 ++ l2)%list k =
  match Dict.get l1 k with
  | Some v => Some v
  | None => Dict.get l2 k
  end.
Proof.
  induction l1 as [|[k0 v0] l1 IH]; simpl; [reflexivity|].
  destruct (String.eqb k0 k); [reflexivity | exact IH].
Qed.

Lemma update_cons (d : dict) (kv : string * pyval) (l : dict) :
  Dict.update d (kv :: l) = Dict.update (Dict.set d (fst kv) (snd kv)) l.
Proof. reflexivity. Qed.

Lemma update_app (d l1 l2 : dict) :
  Dict.update d (l1 ++ l2)%list = Dict.update (Dict.update d l1) l2.
Proof. unfold Dict.update. apply fold_left_app. Qed.

(** After a sequence of assignments a key holds what was assigned last. *)
Lemma get_update (l d : dict) (k : string) :
  Dict.get (Dict.update d l) k =
  match Dict.get (rev l) k with
  | Some v => Some v
  | None => Dict.get d k
  end.
Proof.
  revert d; induction l as [|[k0 v0] l IH]; intro d.
  - reflexivity.
  - rewrite update_cons, IH. simpl fst; simpl snd. simpl rev.
    rewrite get_app. destruct (Dict.get (rev l) k); [reflexivity|].
    rewrite get_set. simpl. destruct (String.eqb k0 k); reflexivity.
Qed.

Lemma get_some_in (d : dict) (k : string) (v : pyval) :
  Dict.get d k = Some v -> In (k, v) d.
Proof.
  induction d as [|[k0 v0] d IH]; simpl; [discriminate|].
  destruct (String.eqb k0 k) eqn:E.
  - apply String.eqb_eq in E; subst. intros H; inversion H; subst. now left.
  - intros H; right; auto.
Qed.

Lemma get_none_iff (d : dict) (k : string) :
  Dict.get d k = None <-> ~ In k (Dict.keys d).
Proof.
  induction d as [|[k0 v0] d IH]; simpl.
  - split; [intros _ [] | reflexivity].
  - destruct (String.eqb k0 k) eqn:E.
    + apply String.eqb_eq in E; subst. split; [discriminate|].
      intros H; exfalso; apply H; now left.
    + apply String.eqb_neq in E. rewrite IH. split.
      * intros H [H1|H1]; [congruence | auto].
      * intros H H1; apply H; now right.
Qed.

Lemma in_keys_get (d : dict) (k : string) :
  In k (Dict.keys d) <-> exists v, Dict.get d k = Some v.
Proof.
  split.
  - intros H. destruct (Dict.get d k) eqn:E; [eauto|].
    apply get_none_iff in E; contradiction.
  - intros [v H] . destruct (in_dec string_dec k (Dict.keys d)) as [|N]; auto.
    apply get_none_iff in N; congruence.
Qed.

Lemma get_wf_in (d : dict) (k : string) (v : pyval) :
  Dict.wf d -> In (k, v) d -> Dict.get d k = Some v.
Proof.
  unfold Dict.wf, Dict.keys.
  induction d as [|[k0 v0] d IH]; simpl; [intros _ []|].
  intros W [H|H].
  - inversion H; subst. now rewrite String.eqb_refl.
  - inversion W; subst. destruct (String.eqb k0 k) eqn:E.
    + apply String.eqb_eq in E; subst. exfalso. apply H2.
      change k with (fst (k, v)). now apply in_map.
    + auto.
Qed.

Lemma mem_in (k : string) (l : list string) :
  Dict.mem k l = true <-> In k l.
Proof.
  induction l as [|k0 l IH]; simpl.
  - split; [discriminate | intros []].
  - rewrite orb_true_iff, IH, String.eqb_eq. reflexivity.
Qed.

Lemma nodupb_NoDup (l : list string) : Dict.nodupb l = true <-> NoDup l.
Proof.
  induction l as [|k l IH]; simpl.
  - split; [constructor | reflexivity].
  - rewrite andb_true_iff, negb_true_iff, IH. split.
    + intros [H1 H2]. constructor; auto. rewrite <- mem_in. congruence.
    + intros H; inversion H; subst. split; auto.
      destruct (Dict.mem k l) eqn:E; auto. apply mem_in in E. contradiction.
Qed.

Lemma wfb_wf (d : dict) : Dict.wfb d = true <-> Dict.wf d.
Proof. apply nodupb_NoDup. Qed.

Lemma keys_set (d : dict) (k k' : string) (v : pyval) :
  In k' (Dict.keys (Dict.set d k v)) <-> k' = k \/ In k' (Dict.keys d).
Proof.
  rewrite !in_keys_get. setoid_rewrite get_set.
  destruct (String.eqb k k') eqn:E.
  - apply String.eqb_eq in E; subst. split; eauto.
  - apply String.eqb_neq in E. split.
    + intros H; now right.
    + intros [H|H]; [congruence | exact H].
Qed.

Lemma keys_update (l d : dict) (k : string) :
  In k (Dict.keys (Dict.update d l)) <->
  In k (Dict.keys d) \/ In k (Dict.keys l).
Proof.
  revert d; induction l as [|[k0 v0] l IH]; intro d.
  - simpl. tauto.
  - rewrite update_cons, IH, keys_set. simpl. intuition auto.
Qed.

(** Assigning fresh, pairwise distinct keys appends the bindings in
    order. *)
Lemma set_fresh (d : dict) (k : string) (v : pyval) :
  ~ In k (Dict.keys d) -> Dict.set d k v = (d ++ [(k, v)])%list.
Proof.
  induction d as [|[k0 v0] d IH]; simpl; [reflexivity|].
  intros H. destruct (String.eqb k0 k) eqn:E.
  - apply String.eqb_eq in E. exfalso; apply H; now left.
  - rewrite IH; [reflexivity|]. intros H1; apply H; now right.
Qed.

Lemma update_fresh (l d : dict) :
  NoDup (Dict.keys (d ++ l)%list) -> Dict.update d l = (d ++ l)%list.
Proof.
  revert d; induction l as [|[k0 v0] l IH]; intros d H.
  - now rewrite app_nil_r.
  - rewrite update_cons. simpl fst; simpl snd.
    assert (N : ~ In k0 (Dict.keys d)).
    { unfold Dict.keys in *. rewrite map_app in H.
      apply NoDup_remove_2 in H. intros H1; apply H.
      apply in_or_app; now left. }
    rewrite (set_fresh _ _ _ N), IH.
    + now rewrite <- app_assoc.
    + now rewrite <- app_assoc.
Qed.

Lemma for_ext_in {A S : Type} (l : list A) (f g : A -> S -> result S) :
  (forall x s, In x l -> f x s = g x s) ->
  forall s, for_ l f s = for_ l g s.
Proof.
  induction l as [|x l IH]; intros H s; simpl; [reflexivity|].
  rewrite (H x s (or_introl eq_refl)).
  destruct (g x s); [|reflexivity].
  apply IH. intros y s' Hy. apply H. now right.
Qed.

(** A loop that stores, for each key of [d], the value of the key under a
    name computed from it, performs these assignments in order. *)
Lemma for_assign (d : dict) (name : string -> string) (l out : dict) :
  (forall kv, In kv l -> Dict.get d (fst kv) = Some (snd kv)) ->
  for_ (Dict.keys l)
    (fun key out =>
       (v <- Dict.getitem d key ;; Ok (Dict.set out (name key) v))%result)
    out
  = Ok (Dict.update out (map (fun kv => (name (fst kv), snd kv)) l)).
Proof.
  revert out; induction l as [|[k v] l IH]; intros out H; simpl.
  - reflexivity.
  - assert (Hk := H (k, v) (or_introl eq_refl)). simpl in Hk.
    unfold Dict.getitem. rewrite Hk. simpl.
    apply IH. intros kv Hkv. apply H. now right.
Qed.

Lemma for_assign_wf (d : dict) (name : string -> string) :
  Dict.wf d ->
  for_ (Dict.keys d)
    (fun key out =>
       (v <- Dict.getitem d key ;; Ok (Dict.set out (name key) v))%result)
    []
  = Ok (Dict.update [] (map (fun kv => (name (fst kv), snd kv)) d)).
Proof.
  intros W. apply for_assign. intros [k v] H. now apply get_wf_in.
Qed.

(** A key that is assigned once, or always with the same value, holds that
    value. *)
Lemma get_unique_value (l : dict) (k : string) (v : pyval) :
  In k (Dict.keys l) ->
  (forall v', In (k, v') l -> v' = v) ->
  Dict.get l k = Some v.
Proof.
  intros Hin Hu. apply in_keys_get in Hin. destruct Hin as [v' Hv'].
  rewrite Hv'. f_equal. apply Hu. now apply get_some_in.
Qed.

(* ================================================================== *)
(** ** Strings *)
(* ================================================================== *)

Lemma append_nil_r (s : string) : s ++ "" = s.
Proof. induction s; simpl; congruence. Qed.

Lemma append_assoc (a b c : string) : (a ++ b) ++ c = a ++ (b ++ c).
Proof. induction a; simpl; congruence. Qed.

Lemma length_append (a b : string) :
  String.length (a ++ b) = (String.length a + String.length b)%nat.
Proof. induction a; simpl; congruence. Qed.

Lemma append_inv_head (p a b : string) : p ++ a = p ++ b -> a = b.
Proof. induction p; simpl; intros H; [exact H | inversion H; auto]. Qed.

Lemma append_inv_tail (s a b : string) : a ++ s = b ++ s -> a = b.
Proof.
  revert b; induction a as [|x a IH]; intros [|y b] H; simpl in H.
  - reflexivity.
  - apply (f_equal String.length) in H. simpl in H.
    rewrite length_append in H. lia.
  - apply (f_equal String.length) in H. simpl in H.
    rewrite length_append in H. lia.
  - inversion H; subst. f_equal. auto.
Qed.

Lemma take_all (n : nat) (s : string) :
  (String.length s <= n)%nat -> Str.take n s = s.
Proof.
  revert n; induction s as [|a s IH]; intros [|n] H; simpl in *;
    try reflexivity; try lia.
  f_equal. apply IH. lia.
Qed.

Lemma length_drop (n : nat) (s : string) :
  String.length (Str.drop n s) = (String.length s - n)%nat.
Proof.
  revert s; induction n as [|n IH]; intros [|a s]; simpl; auto.
Qed.

Lemma length_take (n : nat) (s : string) :
  String.length (Str.take n s) = Nat.min n (String.length s).
Proof.
  revert s; induction n as [|n IH]; intros [|a s]; simpl; auto.
Qed.

Lemma take_drop (n : nat) (s : string) : Str.take n s ++ Str.drop n s = s.
Proof.
  revert s; induction n as [|n IH]; intros [|a s]; simpl; auto.
  now rewrite IH.
Qed.

Lemma take_append (a b : string) : Str.take (String.length a) (a ++ b) = a.
Proof. induction a; simpl; [destruct b; reflexivity | congruence]. Qed.

Lemma drop_append (a b : string) : Str.drop (String.length a) (a ++ b) = b.
Proof. induction a; simpl; auto. Qed.

(** The first occurrence of a character cuts the string in two; the part
    before it is free of the character. *)
Lemma index_split (c : ascii) (s : string) (n : nat) :
  Str.index c s = Some n ->
  s = Str.take n s ++ String c (Str.drop (S n) s)
  /\ Str.index c (Str.take n s) = None
  /\ (n < String.length s)%nat.
Proof.
  revert n; induction s as [|a s IH]; intros n; simpl; [discriminate|].
  destruct (Ascii.eqb a c) eqn:E.
  - intros H; inversion H; subst. apply Ascii.eqb_eq in E; subst.
    simpl. split; [reflexivity | split; [reflexivity | lia]].
  - destruct (Str.index c s) as [m|] eqn:Em; [|discriminate].
    intros H; inversion H; subst.
    destruct (IH m eq_refl) as (H1 & H2 & H3).
    simpl. rewrite E, H2. split; [f_equal; exact H1 | split; [reflexivity | lia]].
Qed.

Lemma index_append_fresh (c : ascii) (a b : string) :
  Str.index c a = None ->
  Str.index c (a ++ String c b) = Some (String.length a).
Proof.
  induction a as [|x a IH]; simpl.
  - now rewrite Ascii.eqb_refl.
  - destruct (Ascii.eqb x c); [discriminate|].
    destruct (Str.index c a); [discriminate|].
    intros _. now rewrite IH.
Qed.

Lemma bound_in_range (s : string) (n : nat) :
  (n <= String.length s)%nat -> Str.bound s (Z.of_nat n) = Z.of_nat n.
Proof.
  intros H. unfold Str.bound, Str.len.
  destruct (Z.ltb_spec (Z.of_nat n) 0); lia.
Qed.

Lemma slice_prefix (s : string) (n : nat) :
  (n <= String.length s)%nat -> Str.slice s 0 (Z.of_nat n) = Str.take n s.
Proof.
  intros H. unfold Str.slice.
  rewrite (bound_in_range s n H).
  change 0 with (Z.of_nat 0). rewrite bound_in_range by lia.
  simpl. now rewrite Z.sub_0_r, Nat2Z.id.
Qed.

Lemma slice_suffix (s : string) (n : nat) :
  (n <= String.length s)%nat ->
  Str.slice s (Z.of_nat n) (Str.len s) = Str.drop n s.
Proof.
  intros H. unfold Str.slice, Str.len.
  rewrite (bound_in_range s n H), (bound_in_range s _ (le_n _)).
  rewrite Nat2Z.id. apply take_all. rewrite length_drop. lia.
Qed.

(** The two slices of lines 273 and 459 are the text before and the text
    after the first underscore. *)
Lemma first_underscore (key : string) :
  Str.contains "_" key = true ->
  exists before after,
    key = before ++ "_" ++ after
    /\ Str.contains "_" before = false
    /\ Str.slice key 0 (Str.find key "_") = before
    /\ Str.slice key (Str.find key "_" + 1) (Str.len key) = after.
Proof.
  unfold Str.contains, Str.find.
  destruct (Str.index "_" key) as [n|] eqn:E; [intros _ | discriminate].
  destruct (index_split _ _ _ E) as (H1 & H2 & H3).
  exists (Str.take n key), (Str.drop (S n) key).
  split; [|split; [|split]].
  - exact H1.
  - now rewrite H2.
  - apply slice_prefix. lia.
  - replace (Z.of_nat n + 1) with (Z.of_nat (S n)) by lia.
    apply slice_suffix. lia.
Qed.

(* ================================================================== *)
(** ** Parameter helpers *)
(* ================================================================== *)

(** C2 (the code departs from the claim).  The comprehension of
    [create_conditions] and of [create_history_query] tests the key, not
    the value, so every key is kept whatever its argument:
    [create_history_query] always returns its five keys and
    [create_conditions] always returns [offset], [limit] and [orderby],
    followed by [filter] exactly when [filters] is true.  With only
    [action="all"] set, the other four keys are present with value
    [None]. *)
Theorem param_helpers_keep_unset_keys :
  (forall action date sort_by start_date end_date,
      Dict.keys (create_history_query action date sort_by start_date end_date)
      = ["action"; "date"; "sort_by"; "startDate"; "endDate"])
  /\ (forall offset limit filters order_by,
         Dict.keys (create_conditions offset limit filters order_by)
         = (["offset"; "limit"; "orderby"]
              ++ (if Py.truthy filters then ["filter"] else []))%list)
  /\ create_history_query (VStr "all") VNone VNone VNone VNone
     = [("action", VStr "all"); ("date", VNone); ("sort_by", VNone);
        ("startDate", VNone); ("endDate", VNone)]
  /\ create_conditions VNone VNone VNone VNone
     = [("offset", VNone); ("limit", VNone); ("orderby", VNone)].
Proof.
  split; [|split; [|split]].
  - intros. reflexivity.
  - intros. unfold create_conditions.
    destruct (Py.truthy filters); reflexivity.
  - reflexivity.
  - reflexivity.
Qed.

(* ================================================================== *)
(** ** Key flattening *)
(* ================================================================== *)

Lemma create_form_submission_sub_eq (submission : dict) :
  Dict.wf submission ->
  create_form_submission_sub submission
  = Ok (Dict.update []
          (map (fun kv => (create_form_submission_name (fst kv), snd kv))
             submission)).
Proof.
  intros W. rewrite <- (for_assign_wf submission _ W).
  unfold create_form_submission_sub. apply for_ext_in.
  intros key sub _. unfold create_form_submission_name.
  destruct (Str.contains "_" key); reflexivity.
Qed.

Lemma edit_submission_sub_eq (submission : dict) :
  Dict.wf submission ->
  edit_submission_sub submission
  = Ok (Dict.update []
          (map (fun kv => (edit_submission_name (fst kv), snd kv))
             submission)).
Proof.
  intros W. rewrite <- (for_assign_wf submission _ W).
  unfold edit_submission_sub. apply for_ext_in.
  intros key sub _. unfold edit_submission_name.
  destruct (Str.contains "_" key && negb (String.eqb key "created_at"));
    reflexivity.
Qed.

(** What a renaming loop leaves under the new name of a key. *)
Lemma renamed_lookup (d : dict) (nm : string -> string) (key : string)
  (v : pyval) :
  Dict.wf d ->
  Dict.get d key = Some v ->
  In (nm key)
    (Dict.keys (Dict.update [] (map (fun kv => (nm (fst kv), snd kv)) d)))
  /\ ((forall key', In key' (Dict.keys d) -> nm key' = nm key -> key' = key) ->
      Dict.get (Dict.update [] (map (fun kv => (nm (fst kv), snd kv)) d))
        (nm key) = Some v).
Proof.
  intros W G.
  assert (Hin : In (nm key)
                  (Dict.keys (map (fun kv => (nm (fst kv), snd kv)) d))).
  { unfold Dict.keys. rewrite map_map. simpl.
    apply get_some_in in G.
    change (nm key) with ((fun x : string * pyval => nm (fst x)) (key, v)).
    now apply in_map. }
  split.
  - apply keys_update. now right.
  - intros U. rewrite get_update.
    rewrite (get_unique_value _ (nm key) v); [reflexivity | |].
    + unfold Dict.keys in *. rewrite map_rev. now apply -> in_rev.
    + intros v' Hv'. apply in_rev in Hv'. apply in_map_iff in Hv'.
      destruct Hv' as ([k0 v0] & E & Hk). simpl in E. inversion E; subst.
      assert (k0 = key).
      { apply U; [|assumption]. unfold Dict.keys.
        change k0 with (fst (k0, v')). now apply in_map. }
      subst k0. pose proof (get_wf_in _ _ _ W Hk). congruence.
Qed.

(** C3 (the code departs from the claim).  [create_form_submission] has no
    special case for [created_at]: it splits the key at its underscore like
    any other and sends [submission[created][at]].  [edit_submission] keeps
    the key whole. *)
Theorem create_form_submission_splits_created_at :
  (forall v,
      create_form_submission_sub [("created_at", v)]
      = Ok [("submission[created][at]", v)])
  /\ (forall v,
         edit_submission_sub [("created_at", v)]
         = Ok [("submission[created_at]", v)])
  /\ edit_submission_sub
       [("created_at", VStr "2020-01-01"); ("status_new", VStr "1")]
     = Ok [("submission[created_at]", VStr "2020-01-01");
           ("submission[status][new]", VStr "1")]
  /\ create_form_submission_sub
       [("created_at", VStr "2020-01-01"); ("status_new", VStr "1")]
     = Ok [("submission[created][at]", VStr "2020-01-01");
           ("submission[status][new]", VStr "1")].
Proof.
  split; [|split; [|split]]; intros; reflexivity.
Qed.

(** C5.  In a submission, a key that contains an underscore and is not
    [created_at] is cut at its first underscore: it reads
    [before ++ "_" ++ after] with no underscore in [before], and both
    [create_form_submission] and [edit_submission] store a parameter named
    [submission[before][after]] in the parameters they hand to [fetch_url]
    for their POST request; the parameter holds the value of the key
    unless another key of the submission is given the same name.  In
    particular [a_b_c] becomes [submission[a][b_c]]. *)
Theorem submission_key_split_at_first_underscore :
  (forall v,
      create_form_submission_sub [("a_b_c", v)]
      = Ok [("submission[a][b_c]", v)]
      /\ edit_submission_sub [("a_b_c", v)] = Ok [("submission[a][b_c]", v)]
      /\ (forall id,
             create_form_submission id [("a_b_c", v)]
             = fetch_url ("/form/" ++ id ++ "/submissions")
                 (VDict [("submission[a][b_c]", v)]) POST)
      /\ (forall sid,
             edit_submission sid [("a_b_c", v)]
             = fetch_url ("/submission/" ++ sid)
                 (VDict [("submission[a][b_c]", v)]) POST))
  /\
  forall (submission : dict) (key : string) (v : pyval),
    Dict.wf submission ->
    Dict.get submission key = Some v ->
    Str.contains "_" key = true ->
    key <> "created_at" ->
    exists before after,
      key = before ++ "_" ++ after
      /\ Str.contains "_" before = false
      /\ (exists sub,
             create_form_submission_sub submission = Ok sub
             /\ (forall id,
                    create_form_submission id submission
                    = fetch_url ("/form/" ++ id ++ "/submissions")
                        (VDict sub) POST)
             /\ In ("submission[" ++ before ++ "][" ++ after ++ "]")
                  (Dict.keys sub)
             /\ ((forall key', In key' (Dict.keys submission) ->
                               create_form_submission_name key'
                               = create_form_submission_name key ->
                               key' = key) ->
                 Dict.get sub ("submission[" ++ before ++ "][" ++ after ++ "]")
                 = Some v))
      /\ (exists sub,
             edit_submission_sub submission = Ok sub
             /\ (forall sid,
                    edit_submission sid submission
                    = fetch_url ("/submission/" ++ sid) (VDict sub) POST)
             /\ In ("submission[" ++ before ++ "][" ++ after ++ "]")
                  (Dict.keys sub)
             /\ ((forall key', In key' (Dict.keys submission) ->
                               edit_submission_name key'
                               = edit_submission_name key ->
                               key' = key) ->
                 Dict.get sub ("submission[" ++ before ++ "][" ++ after ++ "]")
                 = Some v)).
Proof.
  split.
  { intros v. split; [reflexivity|]. split; [reflexivity|].
    split; intros; reflexivity. }
  intros submission key v W G C N.
  destruct (first_underscore key C) as (before & after & H1 & H2 & H3 & H4).
  exists before, after. split; [exact H1|]. split; [exact H2|].
  assert (E1 : create_form_submission_name key
               = "submission[" ++ before ++ "][" ++ after ++ "]").
  { unfold create_form_submission_name. now rewrite C, H3, H4. }
  assert (E2 : edit_submission_name key
               = "submission[" ++ before ++ "][" ++ after ++ "]").
  { unfold edit_submission_name. rewrite C, H3, H4.
    apply String.eqb_neq in N. now rewrite N. }
  pose proof (create_form_submission_sub_eq _ W) as L1.
  pose proof (edit_submission_sub_eq _ W) as L2.
  split.
  - eexists. split; [exact L1|]. split.
    + intros id. unfold create_form_submission. rewrite L1. reflexivity.
    + rewrite <- E1. apply renamed_lookup; assumption.
  - eexists. split; [exact L2|]. split.
    + intros sid. unfold edit_submission. rewrite L2. reflexivity.
    + rewrite <- E2. apply renamed_lookup; assumption.
Qed.

Lemma submission_key_split_at_first_underscore_witness :
  exists before after,
    "a_b_c" = before ++ "_" ++ after
    /\ Str.contains "_" before = false
    /\ (exists sub,
           create_form_submission_sub [("a_b_c", VStr "1")] = Ok sub
           /\ (forall id,
                  create_form_submission id [("a_b_c", VStr "1")]
                  = fetch_url ("/form/" ++ id ++ "/submissions")
                      (VDict sub) POST)
           /\ In ("submission[" ++ before ++ "][" ++ after ++ "]")
                (Dict.keys sub)
           /\ ((forall key', In key' (Dict.keys [("a_b_c", VStr "1")]) ->
                             create_form_submission_name key'
                             = create_form_submission_name "a_b_c" ->
                             key' = "a_b_c") ->
               Dict.get sub ("submission[" ++ before ++ "][" ++ after ++ "]")
               = Some (VStr "1")))
    /\ (exists sub,
           edit_submission_sub [("a_b_c", VStr "1")] = Ok sub
           /\ (forall sid,
                  edit_submission sid [("a_b_c", VStr "1")]
                  = fetch_url ("/submission/" ++ sid) (VDict sub) POST)
           /\ In ("submission[" ++ before ++ "][" ++ after ++ "]")
                (Dict.keys sub)
           /\ ((forall key', In key' (Dict.keys [("a_b_c", VStr "1")]) ->
                             edit_submission_name key'
                             = edit_submission_name "a_b_c" ->
                             key' = "a_b_c") ->
               Dict.get sub ("submission[" ++ before ++ "][" ++ after ++ "]")
               = Some (VStr "1"))).
Proof.
  apply (proj2 submission_key_split_at_first_underscore
           [("a_b_c", VStr "1")] "a_b_c" (VStr "1")).
  - apply wfb_wf. reflexivity.
  - reflexivity.
  - reflexivity.
  - discriminate.
Defined.

Lemma NoDup_map_injective {A B : Type} (f : A -> B) (l : list A) :
  (forall x y, f x = f y -> x = y) -> NoDup l -> NoDup (map f l).
Proof.
  intros Inj H; induction H as [|x l Hx H IH]; simpl; constructor; auto.
  intros Hin. apply in_map_iff in Hin. destruct Hin as (y & E & Hy).
  apply Inj in E. now subst.
Qed.

Lemma bracket_injective (prefix k1 k2 : string) :
  prefix ++ "[" ++ k1 ++ "]" = prefix ++ "[" ++ k2 ++ "]" -> k1 = k2.
Proof.
  intros H. apply append_inv_head in H. apply append_inv_head in H.
  now apply append_inv_tail in H.
Qed.

Lemma bracketed_wf (prefix : string) (d : dict) :
  Dict.wf d -> Dict.wf (map (bracketed prefix) d).
Proof.
  unfold Dict.wf, Dict.keys. intros W.
  replace (map fst (map (bracketed prefix) d))
    with (map (fun k => prefix ++ "[" ++ k ++ "]") (map fst d))
    by (rewrite !map_map; reflexivity).
  apply NoDup_map_injective; [|exact W].
  intros x y. apply bracket_injective.
Qed.

Lemma bracket_keys_eq (prefix : string) (d : dict) :
  Dict.wf d -> bracket_keys prefix d = Ok (map (bracketed prefix) d).
Proof.
  intros W. unfold bracket_keys.
  rewrite (for_assign_wf d (fun key => prefix ++ "[" ++ key ++ "]") W).
  f_equal. apply (update_fresh _ []). simpl. now apply bracketed_wf.
Qed.

(** C4, as the code has it.  [create_form_question], [edit_form_question]
    and [set_form_properties] wrap every key of their argument, with or
    without an underscore, in the one-level form [question[key]] or
    [properties[key]], keep its value and the order of the keys, and pass
    the result on as the parameters of the request. *)
Theorem question_and_property_keys_one_level :
  forall (d : dict),
    Dict.wf d ->
    create_form_question_params d = Ok (map (bracketed "question") d)
    /\ edit_form_question_question d = Ok (map (bracketed "question") d)
    /\ set_form_properties_properties d = Ok (map (bracketed "properties") d)
    /\ (forall form_id,
           create_form_question form_id d
           = fetch_url ("/form/" ++ form_id ++ "/questions")
               (VDict (map (bracketed "question") d)) POST)
    /\ (forall form_id qid,
           edit_form_question form_id qid d
           = fetch_url ("/form/" ++ form_id ++ "/question/" ++ qid)
               (VDict (map (bracketed "question") d)) POST)
    /\ (forall form_id,
           set_form_properties form_id d
           = fetch_url ("/form/" ++ form_id ++ "/properties")
               (VDict (map (bracketed "properties") d)) POST).
Proof.
  intros d W.
  assert (Q := bracket_keys_eq "question" d W).
  assert (P := bracket_keys_eq "properties" d W).
  split; [exact Q|]. split; [exact Q|]. split; [exact P|].
  split; [|split]; intros.
  - unfold create_form_question, create_form_question_params.
    rewrite Q. reflexivity.
  - unfold edit_form_question, edit_form_question_question.
    rewrite Q. reflexivity.
  - unfold set_form_properties, set_form_properties_properties.
    rewrite P. reflexivity.
Qed.

Lemma question_and_property_keys_one_level_witness :
  create_form_question_params [("text_size", VStr "12"); ("type", VStr "x")]
  = Ok (map (bracketed "question")
          [("text_size", VStr "12"); ("type", VStr "x")]).
Proof.
  apply (question_and_property_keys_one_level
           [("text_size", VStr "12"); ("type", VStr "x")]).
  apply wfb_wf. reflexivity.
Defined.

(** C4, as the claim words it, fails: a key with an underscore is not
    split by the question and property operations. *)
Lemma question_key_with_underscore_not_split :
  create_form_question_params [("text_size", VStr "12")]
  = Ok [("question[text_size]", VStr "12")]
  /\ edit_form_question_question [("text_size", VStr "12")]
     = Ok [("question[text_size]", VStr "12")]
  /\ set_form_properties_properties [("label_width", VStr "150")]
     = Ok [("properties[label_width]", VStr "150")]
  /\ create_form_question_params [("text_size", VStr "12")]
     <> Ok [("question[text][size]", VStr "12")]
  /\ edit_form_question_question [("text_size", VStr "12")]
     <> Ok [("question[text][size]", VStr "12")]
  /\ set_form_properties_properties [("label_width", VStr "150")]
     <> Ok [("properties[label][width]", VStr "150")].
Proof.
  repeat (split; [reflexivity|]). repeat split; discriminate.
Qed.

(* ================================================================== *)
(** ** Whole-form creation *)
(* ================================================================== *)

Lemma for_map {A B S : Type} (g : A -> B) (l : list A)
  (body : B -> S -> result S) (s : S) :
  for_ (map g l) body s = for_ l (fun x s => body (g x) s) s.
Proof.
  revert s; induction l as [|x l IH]; intro s; simpl; [reflexivity|].
  destruct (body (g x) s); [apply IH | reflexivity].
Qed.

(** Running a body again from a state it leaves alone changes nothing. *)
Lemma for_fixed {A S : Type} (l : list A) (F : S -> result S) (s : S) :
  F s = Ok s -> for_ l (fun _ s => F s) s = Ok s.
Proof.
  intros H; induction l as [|x l IH]; simpl; [reflexivity|].
  now rewrite H.
Qed.

Lemma set_same (d : dict) (k : string) (v : pyval) :
  Dict.get d k = Some v -> Dict.set d k v = d.
Proof.
  induction d as [|[k0 v0] d IH]; simpl; [discriminate|].
  destruct (String.eqb k0 k).
  - intros H; inversion H; reflexivity.
  - intros H; now rewrite IH.
Qed.

Lemma update_same (l d : dict) :
  (forall kv, In kv l -> Dict.get d (fst kv) = Some (snd kv)) ->
  Dict.update d l = d.
Proof.
  induction l as [|[k v] l IH]; intros H; [reflexivity|].
  rewrite update_cons. simpl fst; simpl snd.
  rewrite (set_same d k v (H (k, v) (or_introl eq_refl))).
  apply IH. intros kv Hkv. apply H. now right.
Qed.

Lemma get_update_wf (l d : dict) (k : string) (v : pyval) :
  Dict.wf l -> In (k, v) l -> Dict.get (Dict.update d l) k = Some v.
Proof.
  intros W H. rewrite get_update.
  rewrite (get_wf_in (rev l) k v); [reflexivity | | now apply -> in_rev].
  unfold Dict.wf, Dict.keys. rewrite map_rev. now apply NoDup_rev.
Qed.

(** Repeating a pass of assignments to distinct keys is idle. *)
Lemma update_idem (l d : dict) :
  Dict.wf l -> Dict.update (Dict.update d l) l = Dict.update d l.
Proof.
  intros W. apply update_same. intros [k v] H. now apply get_update_wf.
Qed.

Lemma create_form_properties_eq (key : string) (fields params : dict) :
  Dict.wf fields ->
  create_form_properties key (VDict fields) params
  = Ok (Dict.update params (map (bracketed key) fields)).
Proof.
  intros W. unfold create_form_properties. simpl Py.iter. cbn [rbind].
  rewrite for_map.
  assert (H : forall kv, In kv fields ->
                         Dict.get fields (fst kv) = Some (snd kv)).
  { intros [k v] Hk. now apply get_wf_in. }
  exact (for_assign fields (fun k => key ++ "[" ++ k ++ "]") fields params H).
Qed.

(** The ['properties'] branch runs its inner loop once per key of the
    group; every pass after the first repeats the same assignments. *)
Lemma properties_group_eq (key : string) (fields params : dict) :
  Dict.wf fields ->
  for_ (map VStr (Dict.keys fields))
    (fun _ params => create_form_properties key (VDict fields) params) params
  = Ok (Dict.update params (map (bracketed key) fields)).
Proof.
  intros W. destruct (map VStr (Dict.keys fields)) as [|k ks] eqn:E.
  - destruct fields; [reflexivity | discriminate].
  - simpl. rewrite (create_form_properties_eq key fields params W).
    apply (for_fixed ks (create_form_properties key (VDict fields))).
    rewrite (create_form_properties_eq key fields _ W). f_equal.
    apply update_idem. now apply bracketed_wf.
Qed.

Lemma create_form_field_eq (key f : string) (fields props params : dict) :
  Dict.get fields f = Some (VDict props) ->
  Dict.wf props ->
  create_form_field key (VDict fields) (VStr f) params
  = Ok (Dict.update params (field_leaves key (f, VDict props))).
Proof.
  intros G W. unfold create_form_field. simpl Py.getitem.
  unfold Dict.getitem. rewrite G. cbn [rbind]. simpl Py.iter. cbn [rbind].
  rewrite for_map.
  assert (H : forall kv, In kv props ->
                         Dict.get props (fst kv) = Some (snd kv)).
  { intros [k v] Hk. now apply get_wf_in. }
  exact (for_assign props (fun a => key ++ "[" ++ f ++ "][" ++ a ++ "]")
           props params H).
Qed.

Lemma fields_group_eq (key : string) (fields l params : dict) :
  (forall fp, In fp l ->
              Dict.get fields (fst fp) = Some (snd fp)
              /\ exists props, snd fp = VDict props /\ Dict.wf props) ->
  for_ (map VStr (Dict.keys l))
    (fun k params => create_form_field key (VDict fields) k params) params
  = Ok (Dict.update params (flat_map (field_leaves key) l)).
Proof.
  revert params; induction l as [|[f x] l IH]; intros params H.
  - reflexivity.
  - destruct (H (f, x) (or_introl eq_refl)) as (G & props & E & W).
    simpl in G, E. subst x. simpl.
    rewrite (create_form_field_eq key f fields props params G W).
    rewrite update_app. apply IH. intros fp Hfp. apply H. now right.
Qed.

Lemma two_level_group_shape (key : string) (value : pyval) :
  two_level_group (key, value) = true ->
  exists fields,
    value = VDict fields /\ Dict.wf fields
    /\ (String.eqb key "properties" = false ->
        forall fp, In fp fields ->
                   exists props, snd fp = VDict props /\ Dict.wf props).
Proof.
  unfold two_level_group. simpl. destruct value; try discriminate.
  intros H. apply andb_true_iff in H. destruct H as [H1 H2].
  eexists. split; [reflexivity|]. split; [now apply wfb_wf|].
  intros E fp Hfp. rewrite E in H2. simpl in H2.
  rewrite forallb_forall in H2. specialize (H2 fp Hfp).
  destruct (snd fp); try discriminate.
  eexists. split; [reflexivity | now apply wfb_wf].
Qed.

Lemma create_form_loop (form l params : dict) :
  (forall kv, In kv l ->
              Dict.get form (fst kv) = Some (snd kv)
              /\ two_level_group kv = true) ->
  for_ (Dict.keys l)
    (fun key params =>
       (value <- Dict.getitem form key ;;
        ks <- Py.iter value ;;
        for_ ks
          (fun k params =>
             if String.eqb key "properties"
             then create_form_properties key value params
             else create_form_field key value k params)
          params)%result)
    params
  = Ok (Dict.update params (flat_leaves l)).
Proof.
  revert params; induction l as [|[key value] l IH]; intros params H.
  - reflexivity.
  - destruct (H (key, value) (or_introl eq_refl)) as (G & T).
    simpl in G.
    destruct (two_level_group_shape key value T) as (fields & E & W & F).
    subst value. unfold flat_leaves. simpl flat_map. rewrite update_app.
    simpl Dict.keys. simpl for_. unfold Dict.getitem at 1. rewrite G.
    cbn [rbind]. simpl Py.iter. cbn [rbind].
    unfold group_leaves at 1. simpl fst; simpl snd.
    destruct (String.eqb key "properties") eqn:P.
    + rewrite (properties_group_eq key fields params W).
      apply IH. intros kv Hkv. apply H. now right.
    + rewrite (fields_group_eq key fields fields params).
      * apply IH. intros kv Hkv. apply H. now right.
      * intros [f x] Hfp. split; [now apply get_wf_in | now apply F].
Qed.

Lemma create_form_params_eq (form : dict) :
  two_level form = true ->
  create_form_params form = Ok (Dict.update [] (flat_leaves form)).
Proof.
  unfold two_level. intros H. apply andb_true_iff in H.
  destruct H as [W T]. apply wfb_wf in W. rewrite forallb_forall in T.
  apply create_form_loop. intros [k v] Hkv.
  split; [now apply get_wf_in | now apply T].
Qed.

(** C6.  For a form that is a two-level nested mapping, [create_form]
    performs exactly the assignments of the flattening, in order: each
    leaf of a group other than ['properties'] under
    [group[field][property]] and each entry of ['properties'] under
    [properties[key]].  The parameters hold nothing else, every flattened
    name is among them, and when the flattened names are pairwise distinct
    the parameters are the flattened leaves themselves. *)
Theorem create_form_flattens_leaves :
  forall (form : dict),
    two_level form = true ->
    exists params,
      create_form_params form = Ok params
      /\ create_form form = fetch_url "/user/forms" (VDict params) POST
      /\ params = Dict.update [] (flat_leaves form)
      /\ (forall k v, Dict.get params k = Some v -> In (k, v) (flat_leaves form))
      /\ (forall k v, In (k, v) (flat_leaves form) -> In k (Dict.keys params))
      /\ (NoDup (Dict.keys (flat_leaves form)) -> params = flat_leaves form).
Proof.
  intros form T. pose proof (create_form_params_eq form T) as E.
  exists (Dict.update [] (flat_leaves form)).
  split; [exact E|]. split; [|split; [reflexivity|split; [|split]]].
  - unfold create_form. rewrite E. reflexivity.
  - intros k v H. rewrite get_update in H. simpl in H.
    destruct (Dict.get (rev (flat_leaves form)) k) eqn:G; [|discriminate].
    inversion H; subst. apply get_some_in in G. now apply in_rev.
  - intros k v H. apply keys_update. right.
    unfold Dict.keys. change k with (fst (k, v)). now apply in_map.
  - intros N. now apply (update_fresh _ []).
Qed.

Lemma create_form_flattens_leaves_witness :
  exists params,
    create_form_params
      [("questions",
         VDict [("0", VDict [("type", VStr "control_textbox");
                             ("text", VStr "Name")])]);
       ("properties", VDict [("title", VStr "New Form")])]
    = Ok params
    /\ params
       = [("questions[0][type]", VStr "control_textbox");
          ("questions[0][text]", VStr "Name");
          ("properties[title]", VStr "New Form")].
Proof.
  destruct (create_form_flattens_leaves
              [("questions",
                 VDict [("0", VDict [("type", VStr "control_textbox");
                                     ("text", VStr "Name")])]);
               ("properties", VDict [("title", VStr "New Form")])]
              eq_refl)
    as (params & E & _ & P & _).
  exists params. split; [exact E | exact P].
Defined.

(* ================================================================== *)
(** ** Paths and the .json suffix *)
(* ================================================================== *)

Lemma eqb_empty_false (s : string) : s <> "" -> String.eqb s "" = false.
Proof. intros H. now apply String.eqb_neq. Qed.

Lemma index_take (c : ascii) (n : nat) (s : string) :
  Str.index c s = None -> Str.index c (Str.take n s) = None.
Proof.
  revert n; induction s as [|a s IH]; intros [|n]; simpl; auto.
  destruct (Ascii.eqb a c); [discriminate|].
  destruct (Str.index c s) eqn:E; [discriminate|].
  intros _. now rewrite IH.
Qed.

Lemma index_append_none (c : ascii) (a b : string) :
  Str.index c a = None -> Str.index c b = None ->
  Str.index c (a ++ b) = None.
Proof.
  induction a as [|x a IH]; simpl; auto.
  destruct (Ascii.eqb x c); [discriminate|].
  destruct (Str.index c a); [discriminate|].
  intros _ H. now rewrite IH.
Qed.

Lemma rindex_none (c : ascii) (s : string) :
  Str.index c s = None -> Str.rindex c s = None.
Proof.
  induction s as [|a s IH]; simpl; auto.
  destruct (Ascii.eqb a c); [discriminate|].
  destruct (Str.index c s); [discriminate|].
  intros _. now rewrite IH.
Qed.

Lemma rindex_append (c : ascii) (a b : string) :
  Str.index c b = None ->
  Str.rindex c (a ++ String c b) = Some (String.length a).
Proof.
  intros H. induction a as [|x a IH]; simpl.
  - now rewrite (rindex_none c b H), Ascii.eqb_refl.
  - now rewrite IH.
Qed.

Lemma rindex_bound (c : ascii) (s : string) (n : nat) :
  Str.rindex c s = Some n -> (n < String.length s)%nat.
Proof.
  revert n; induction s as [|a s IH]; intros n; simpl; [discriminate|].
  destruct (Str.rindex c s) as [m|].
  - intros H; inversion H; subst. specialize (IH m eq_refl). lia.
  - destruct (Ascii.eqb a c); [|discriminate].
    intros H; inversion H; subst. lia.
Qed.

(** [split] and [join] on components without the separator. *)
Lemma split_nonempty (s : string) (c : ascii) : Str.split s c <> [].
Proof.
  induction s as [|a s IH]; simpl; [discriminate|].
  destruct (Ascii.eqb a c); [discriminate|].
  destruct (Str.split s c); [contradiction | discriminate].
Qed.

Lemma split_free (c : ascii) (x : string) :
  Str.index c x = None -> Str.split x c = [x].
Proof.
  induction x as [|a x IH]; simpl; [reflexivity|].
  destruct (Ascii.eqb a c); [discriminate|].
  destruct (Str.index c x); [discriminate|].
  intros _. now rewrite IH.
Qed.

Lemma split_append (c : ascii) (x rest : string) :
  Str.index c x = None ->
  Str.split (x ++ String c rest) c = x :: Str.split rest c.
Proof.
  induction x as [|a x IH]; simpl.
  - now rewrite Ascii.eqb_refl.
  - destruct (Ascii.eqb a c); [discriminate|].
    destruct (Str.index c x); [discriminate|].
    intros _. now rewrite IH.
Qed.

Lemma split_parts_free (c : ascii) (s : string) :
  Forall (fun x => Str.index c x = None) (Str.split s c).
Proof.
  induction s as [|a s IH]; simpl.
  - constructor; [reflexivity | constructor].
  - destruct (Ascii.eqb a c) eqn:E.
    + constructor; [reflexivity | exact IH].
    + destruct (Str.split s c) as [|h t]; inversion IH; subst.
      * constructor; [simpl; now rewrite E | constructor].
      * constructor; [|assumption]. simpl. rewrite E.
        now match goal with H : Str.index c h = None |- _ => rewrite H end.
Qed.

Lemma split_join (l : list string) :
  l <> [] ->
  Forall (fun x => Str.index Pathlib.sep x = None) l ->
  Str.split (Str.join "/" l) Pathlib.sep = l.
Proof.
  induction l as [|x l IH]; intros N H; [contradiction|].
  inversion H; subst. destruct l as [|y l].
  - simpl. now apply split_free.
  - change (Str.join "/" (x :: y :: l))
      with (x ++ String Pathlib.sep (Str.join "/" (y :: l))).
    rewrite split_append by assumption.
    f_equal. apply IH; [discriminate | assumption].
Qed.

Lemma filter_keep_good (l : list string) :
  Forall good_part l -> filter Pathlib.keep l = l.
Proof.
  intros H; induction H as [|x l Hx Hl IH]; [reflexivity|].
  destruct Hx as (H1 & H2 & _).
  assert (K : Pathlib.keep x = true).
  { unfold Pathlib.keep. rewrite (eqb_empty_false x H1).
    apply String.eqb_neq in H2. now rewrite H2. }
  simpl. now rewrite K, IH.
Qed.

Lemma keep_good (x : string) :
  Pathlib.keep x = true -> Str.index Pathlib.sep x = None -> good_part x.
Proof.
  unfold Pathlib.keep, good_part. intros H F.
  apply andb_true_iff in H. destruct H as [H1 H2].
  apply negb_true_iff in H1, H2.
  apply String.eqb_neq in H1, H2. auto.
Qed.

(** Whether or not the relative part has a slash, the components are the
    kept pieces of its split. *)
Lemma parse_parts_split (rt rel : string) :
  (if Str.contains Pathlib.sep rel
   then Pathlib.mkpath rt (filter Pathlib.keep (Str.split rel Pathlib.sep))
   else Pathlib.mkpath rt (if Pathlib.keep rel then [rel] else []))
  = Pathlib.mkpath rt (filter Pathlib.keep (Str.split rel Pathlib.sep)).
Proof.
  unfold Str.contains.
  destruct (Str.index Pathlib.sep rel) eqn:E; [reflexivity|].
  rewrite (split_free _ _ E). reflexivity.
Qed.

Lemma parse_parts_eq (a : ascii) (s : string) :
  Pathlib.parse_parts (String a s)
  = Pathlib.mkpath (fst (Pathlib.splitroot (String a s)))
      (filter Pathlib.keep
         (Str.split (snd (Pathlib.splitroot (String a s))) Pathlib.sep)).
Proof.
  unfold Pathlib.parse_parts.
  destruct (Pathlib.splitroot (String a s)) as [rt rel].
  apply parse_parts_split.
Qed.

Lemma splitroot_root (s : string) :
  fst (Pathlib.splitroot s) = ""
  \/ fst (Pathlib.splitroot s) = "/"
  \/ fst (Pathlib.splitroot s) = "//".
Proof.
  unfold Pathlib.splitroot. destruct s as [|a s]; [now left|].
  destruct (Ascii.eqb a Pathlib.sep); [|now left].
  destruct (_ =? 2); simpl; auto.
Qed.

Lemma Path_good (s : string) : good_path (Pathlib.Path s).
Proof.
  unfold Pathlib.Path.
  destruct s as [|a s]; [split; [now left | constructor]|].
  rewrite parse_parts_eq. split; [apply splitroot_root|]. simpl.
  apply Forall_forall. intros x Hx. apply filter_In in Hx.
  destruct Hx as [Hx K]. apply keep_good; [exact K|].
  pose proof (split_parts_free Pathlib.sep
                (snd (Pathlib.splitroot (String a s)))) as F.
  rewrite Forall_forall in F. now apply F.
Qed.

Lemma splitroot_roots (a : ascii) (rel : string) :
  Ascii.eqb a Pathlib.sep = false ->
  Pathlib.splitroot (String a rel) = ("", String a rel)
  /\ Pathlib.splitroot ("/" ++ String a rel) = ("/", String a rel)
  /\ Pathlib.splitroot ("//" ++ String a rel) = ("//", String a rel).
Proof.
  intros E.
  assert (L0 : Str.lstrip Pathlib.is_sep (String a rel) = String a rel).
  { cbn [Str.lstrip]. unfold Pathlib.is_sep. now rewrite E. }
  assert (L1 : Str.lstrip Pathlib.is_sep (String "/" (String a rel))
               = String a rel).
  { cbn [Str.lstrip]. unfold Pathlib.is_sep. now rewrite E. }
  assert (L2 : Str.lstrip Pathlib.is_sep
                 (String "/" (String "/" (String a rel)))
               = String a rel).
  { cbn [Str.lstrip]. unfold Pathlib.is_sep. now rewrite E. }
  split; [|split].
  - unfold Pathlib.splitroot. now rewrite E.
  - change ("/" ++ String a rel) with (String "/" (String a rel)).
    unfold Pathlib.splitroot.
    change (Ascii.eqb "/" Pathlib.sep) with true. cbv iota.
    rewrite L1.
    replace (Str.len (String "/" (String a rel)) - Str.len (String a rel))
      with 1 by (unfold Str.len; cbn [String.length]; lia).
    reflexivity.
  - change ("//" ++ String a rel)
      with (String "/" (String "/" (String a rel))).
    unfold Pathlib.splitroot.
    change (Ascii.eqb "/" Pathlib.sep) with true. cbv iota.
    rewrite L2.
    replace (Str.len (String "/" (String "/" (String a rel)))
             - Str.len (String a rel))
      with 2 by (unfold Str.len; cbn [String.length]; lia).
    reflexivity.
Qed.
Lemma join_head (a : ascii) (x : string) (l : list string) :
  exists rest, Str.join "/" (String a x :: l) = String a rest.
Proof.
  destruct l as [|y l]; simpl; eauto.
Qed.

(** Printing a parsed path that has a final component and parsing it
    again gives the path back. *)
Lemma Path_str (p : Pathlib.path) :
  good_path p -> Pathlib.parts p <> [] ->
  Pathlib.str p <> "." /\ Pathlib.Path (Pathlib.str p) = p.
Proof.
  destruct p as [rt ps]. unfold good_path. simpl.
  intros [R G] N. destruct ps as [|x l]; [contradiction|].
  assert (F : Forall (fun x => Str.index Pathlib.sep x = None) (x :: l)).
  { eapply Forall_impl; [|exact G]. intros y (_ & _ & H). exact H. }
  pose proof (split_join (x :: l) N F) as SJ.
  pose proof (filter_keep_good (x :: l) G) as FK.
  inversion G as [|x0 l0 (X1 & X2 & X3) _]; subst.
  destruct x as [|a x]; [contradiction|].
  assert (E : Ascii.eqb a Pathlib.sep = false).
  { simpl in X3. destruct (Ascii.eqb a Pathlib.sep); [discriminate|].
    reflexivity. }
  destruct (join_head a x l) as [rest J].
  unfold Pathlib.str, Pathlib.Path. simpl Pathlib.root. simpl Pathlib.parts.
  rewrite J in *.
  destruct (splitroot_roots a rest E) as (S0 & S1 & S2).
  destruct R as [R|[R|R]]; subst rt.
  - change ("" ++ String a rest) with (String a rest).
    cbn [String.eqb]. split.
    + intros H; inversion H; subst. simpl in SJ. inversion SJ; subst.
      now apply X2.
    + rewrite parse_parts_eq, S0. cbn [fst snd]. now rewrite SJ, FK.
  - change ("/" ++ String a rest) with (String "/" (String a rest)).
    cbn [String.eqb]. split.
    + intros H; inversion H.
    + rewrite parse_parts_eq.
      change (String "/" (String a rest)) with ("/" ++ String a rest).
      rewrite S1. cbn [fst snd]. now rewrite SJ, FK.
  - change ("//" ++ String a rest)
      with (String "/" (String "/" (String a rest))).
    cbn [String.eqb]. split.
    + intros H; inversion H.
    + rewrite parse_parts_eq.
      change (String "/" (String "/" (String a rest)))
        with ("//" ++ String a rest).
      rewrite S2. cbn [fst snd]. now rewrite SJ, FK.
Qed.

(** Replacing the suffix of [stem.ext] keeps [stem] only. *)
Lemma new_name_replaces (stem ext : string) :
  stem <> "" -> ext <> "" -> Str.index Pathlib.dot ext = None ->
  new_name (stem ++ String Pathlib.dot ext) = stem ++ ".json".
Proof.
  intros Hs He Hd.
  assert (Ls : (0 < String.length stem)%nat) by (destruct stem; simpl; [contradiction | lia]).
  assert (Le : (0 < String.length ext)%nat) by (destruct ext; simpl; [contradiction | lia]).
  assert (L : String.length (stem ++ String Pathlib.dot ext)
              = (String.length stem + S (String.length ext))%nat)
    by (rewrite length_append; reflexivity).
  assert (S1 : Pathlib.suffix_of (stem ++ String Pathlib.dot ext)
               = String Pathlib.dot ext).
  { unfold Pathlib.suffix_of, Str.rfind.
    rewrite (rindex_append Pathlib.dot stem ext Hd).
    replace ((0 <? Z.of_nat (String.length stem))
             && (Z.of_nat (String.length stem)
                 <? Str.len (stem ++ String Pathlib.dot ext) - 1))
      with true.
    - unfold Str.slice_from. rewrite bound_in_range by lia.
      rewrite Nat2Z.id. apply drop_append.
    - symmetry. apply andb_true_iff. unfold Str.len. rewrite L.
      split; apply Z.ltb_lt; lia. }
  unfold new_name. rewrite S1. cbn [String.eqb]. f_equal.
  unfold Str.slice_to, Str.bound, Str.len. rewrite L. simpl String.length.
  replace (Z.to_nat _) with (String.length stem).
  - apply take_append.
  - destruct (Z.ltb_spec (- Z.of_nat (S (String.length ext))) 0); lia.
Qed.

Lemma new_name_json (stem : string) :
  stem <> "" -> new_name (stem ++ ".json") = stem ++ ".json".
Proof.
  intros H. apply (new_name_replaces stem "json" H); [discriminate | reflexivity].
Qed.

(** The new final component is a non-empty stem followed by ['.json']. *)
Lemma new_name_stem (nm : string) :
  good_part nm ->
  exists stem,
    stem <> "" /\ Str.index Pathlib.sep stem = None
    /\ new_name nm = stem ++ ".json".
Proof.
  intros (N1 & N2 & N3). unfold new_name, Pathlib.suffix_of, Str.rfind.
  destruct (Str.rindex Pathlib.dot nm) as [n|] eqn:R.
  - pose proof (rindex_bound _ _ _ R) as B.
    destruct ((0 <? Z.of_nat n) && (Z.of_nat n <? Str.len nm - 1)) eqn:C.
    + apply andb_true_iff in C. destruct C as [C1 C2].
      apply Z.ltb_lt in C1, C2. unfold Str.len in C2.
      unfold Str.slice_from. rewrite bound_in_range by lia.
      rewrite Nat2Z.id.
      assert (D : String.length (Str.drop n nm) = (String.length nm - n)%nat)
        by apply length_drop.
      rewrite eqb_empty_false
        by (intros H; rewrite H in D; simpl in D; lia).
      exists (Str.take n nm). split; [|split].
      * intros H. apply (f_equal String.length) in H.
        rewrite length_take in H. simpl in H. lia.
      * now apply index_take.
      * f_equal. unfold Str.slice_to, Str.bound, Str.len. rewrite D.
        f_equal.
        destruct (Z.ltb_spec (- Z.of_nat (String.length nm - n)) 0); lia.
    + cbn [String.eqb]. exists nm. auto.
  - cbn [andb Z.ltb Z.compare String.eqb]. exists nm. auto.
Qed.

Lemma stem_json_good (stem : string) :
  stem <> "" -> Str.index Pathlib.sep stem = None ->
  good_part (stem ++ ".json").
Proof.
  intros H1 H2. split; [|split].
  - intros H. apply (f_equal String.length) in H.
    rewrite length_append in H. simpl in H. lia.
  - intros H. apply (f_equal String.length) in H.
    rewrite length_append in H. simpl in H. lia.
  - now apply index_append_none.
Qed.

(** [with_suffix('.json')] fails on a path without a final component and
    otherwise rewrites the final component. *)
Lemma with_suffix_json (p : Pathlib.path) :
  Pathlib.with_suffix p ".json"
  = if String.eqb (Pathlib.name p) ""
    then Raise (ValueError "has an empty name")
    else Ok (Pathlib.mkpath (Pathlib.root p)
               (removelast (Pathlib.parts p) ++ [new_name (Pathlib.name p)])%list).
Proof. reflexivity. Qed.

Lemma json_endpoint_fixed (p : Pathlib.path) (stem : string) :
  good_path p -> stem <> "" -> Str.index Pathlib.sep stem = None ->
  json_endpoint
    (Pathlib.str
       (Pathlib.mkpath (Pathlib.root p)
          (removelast (Pathlib.parts p) ++ [(stem ++ ".json")%string])%list))
  = Ok (Pathlib.str
          (Pathlib.mkpath (Pathlib.root p)
             (removelast (Pathlib.parts p) ++ [(stem ++ ".json")%string])%list)).
Proof.
  intros [R G] S1 S2.
  set (q := Pathlib.mkpath (Pathlib.root p)
              (removelast (Pathlib.parts p) ++ [(stem ++ ".json")%string])%list).
  assert (Gq : good_path q).
  { split; [exact R|]. simpl. apply Forall_app. split.
    - apply Forall_forall. intros x Hx.
      rewrite Forall_forall in G. apply G.
      destruct (Pathlib.parts p) as [|y l] eqn:E; [destruct Hx|].
      rewrite (app_removelast_last "" (l := y :: l)) by discriminate.
      apply in_or_app. now left.
    - constructor; [now apply stem_json_good | constructor]. }
  assert (Nq : Pathlib.parts q <> []).
  { simpl. intros H. apply app_eq_nil in H. destruct H; discriminate. }
  unfold json_endpoint.
  rewrite (proj2 (Path_str q Gq Nq)), with_suffix_json.
  assert (Nm : Pathlib.name q = stem ++ ".json").
  { unfold Pathlib.name. simpl. apply last_last. }
  rewrite Nm, (new_name_json stem S1).
  rewrite eqb_empty_false
    by (destruct (stem_json_good stem S1 S2) as [H _]; exact H).
  cbn [rbind]. simpl Pathlib.parts. rewrite removelast_last. reflexivity.
Qed.

(** C7.  The suffix step is idempotent: applied to its own result it
    returns that result, and where it raises it raises again.  A path
    whose final component already reads [stem.json] is only printed back
    as [pathlib] normalises it; no second suffix is added. *)
Theorem json_suffix_idempotent :
  (forall url : string,
      rbind (json_endpoint url) json_endpoint = json_endpoint url)
  /\ (forall url stem : string,
         stem <> "" ->
         Pathlib.name (Pathlib.Path url) = stem ++ ".json" ->
         json_endpoint url = Ok (Pathlib.str (Pathlib.Path url))).
Proof.
  split.
  - intros url. pose proof (Path_good url) as G.
    unfold json_endpoint at 1 3. rewrite with_suffix_json.
    destruct (String.eqb (Pathlib.name (Pathlib.Path url)) "") eqn:E;
      [reflexivity|].
    apply String.eqb_neq in E. cbn [rbind].
    assert (Gn : good_part (Pathlib.name (Pathlib.Path url))).
    { destruct G as [_ G]. rewrite Forall_forall in G. apply G.
      unfold Pathlib.name in *.
      destruct (Pathlib.parts (Pathlib.Path url)) as [|y l] eqn:P;
        [now contradiction E|].
      rewrite (app_removelast_last "" (l := y :: l)) at 2 by discriminate.
      apply in_or_app. right. now left. }
    destruct (new_name_stem _ Gn) as (stem & S1 & S2 & S3).
    rewrite S3. now apply json_endpoint_fixed.
  - intros url stem S N. unfold json_endpoint. rewrite with_suffix_json.
    rewrite N, (new_name_json stem S).
    rewrite eqb_empty_false
      by (intros H; apply (f_equal String.length) in H;
          rewrite length_append in H; simpl in H; lia).
    cbn [rbind]. f_equal. f_equal.
    destruct (Pathlib.Path url) as [rt ps]. unfold Pathlib.name in N.
    simpl in *. f_equal. rewrite <- N. symmetry.
    apply app_removelast_last. intros H. subst ps. simpl in N.
    apply (f_equal String.length) in N. rewrite length_append in N.
    simpl in N. lia.
Qed.

Lemma json_suffix_idempotent_witness :
  json_endpoint "/form//123/questions.json" = Ok "/form/123/questions.json".
Proof.
  apply (proj2 json_suffix_idempotent "/form//123/questions.json" "questions");
    [discriminate | reflexivity].
Defined.

(** C10.  The suffix step replaces: on ['/form/1.5'], whose final segment
    contains a dot, it returns ['/form/1.json'] and not ['/form/1.5.json'].
    In general a final segment [stem.ext] keeps its [stem] only. *)
Theorem dotted_final_segment_is_cut :
  (exists url : string,
      url = "/form/1.5"
      /\ Str.contains "." (Pathlib.name (Pathlib.Path url)) = true
      /\ json_endpoint url = Ok "/form/1.json"
      /\ json_endpoint url <> Ok (url ++ ".json"))
  /\ (forall stem ext : string,
         stem <> "" -> ext <> "" -> Str.index "." ext = None ->
         new_name (stem ++ "." ++ ext) = stem ++ ".json").
Proof.
  split.
  - exists "/form/1.5". split; [reflexivity|]. split; [reflexivity|].
    split; [reflexivity | discriminate].
  - intros stem ext. apply new_name_replaces.
Qed.

Lemma dotted_final_segment_is_cut_witness :
  new_name ("1" ++ "." ++ "5") = "1" ++ ".json".
Proof.
  apply (proj2 dotted_final_segment_is_cut "1" "5");
    [discriminate | discriminate | reflexivity].
Defined.

(* ================================================================== *)
(** ** The request pipeline *)
(* ================================================================== *)

(** The records [fetch_url] logs before it sends the request. *)
Lemma fetch_url_run (url : string) (params method api_key debug : pyval)
  (t : transport) (u : string) :
  request_url url = Ok u ->
  fetch_url url params method t (new_client api_key debug)
  = ((resp <- t (mkrequest method u [("apiKey", api_key)] params) ;;
      json_response <- json resp ;;
      Py.get_method json_response "content")%result,
     mkworld [("api_key", api_key); ("debug_mode", debug)]
       ((if Py.truthy debug
         then LogDebug (VStr ("fetching url " ++ u))
                :: (if Py.truthy params then [LogDebug params] else [])
         else [])
          ++ [HttpRequest (mkrequest method u [("apiKey", api_key)] params)])).
Proof.
  intros H.
  cbv [fetch_url bind lift log getattr logger_debug ret requests_request].
  rewrite H.
  destruct (Py.truthy debug) eqn:D, (Py.truthy params) eqn:P;
    repeat (progress (simpl; rewrite ?D, ?P));
    (destruct (t _) as [resp|e]; simpl; [|reflexivity]);
    (destruct resp as [[j|e]]; simpl; [|reflexivity]);
    destruct (Py.get_method j "content"); reflexivity.
Qed.

(** C8.  When the request goes out and the response decodes to a JSON
    object, [fetch_url] returns the value under the key ['content'], and
    [None], not an exception, when the object has no such key. *)
Theorem fetch_url_returns_content :
  forall (url : string) (params method api_key debug : pyval)
         (t : transport) (u : string) (d : dict),
    request_url url = Ok u ->
    t (mkrequest method u [("apiKey", api_key)] params)
    = Ok (mkresponse (Ok (VDict d))) ->
    (forall v, Dict.get d "content" = Some v ->
               result_of (fetch_url url params method) t
                 (new_client api_key debug) = Ok v)
    /\ (Dict.get d "content" = None ->
        result_of (fetch_url url params method) t
          (new_client api_key debug) = Ok VNone).
Proof.
  intros url params method api_key debug t u d U T.
  unfold result_of. rewrite (fetch_url_run _ _ _ _ _ _ _ U), T. simpl.
  split; [intros v H | intros H]; now rewrite H.
Qed.

Lemma fetch_url_returns_content_witness :
  result_of (fetch_url "/user" VNone GET)
    (fun _ => Ok (mkresponse (Ok (VDict [("responseCode", VInt 200)]))))
    (new_client (VStr "key") (VBool false))
  = Ok VNone.
Proof.
  apply (fetch_url_returns_content "/user" VNone GET (VStr "key")
           (VBool false)
           (fun _ => Ok (mkresponse (Ok (VDict [("responseCode", VInt 200)]))))
           "https://api.jotform.com/user.json"
           [("responseCode", VInt 200)]);
    vm_compute; reflexivity.
Defined.

(* ================================================================== *)
(** ** The URL of a request *)
(* ================================================================== *)

Lemma alnum_not (c a : ascii) :
  alnum_char c = false -> alnum_char a = true -> Ascii.eqb a c = false.
Proof.
  intros Hc Ha. destruct (Ascii.eqb a c) eqn:E; [|reflexivity].
  apply Ascii.eqb_eq in E. congruence.
Qed.

Lemma forallb_index (c : ascii) (s : string) :
  alnum_char c = false -> Str.forallb alnum_char s = true ->
  Str.index c s = None.
Proof.
  intros Hc. induction s as [|a s IH]; simpl; [reflexivity|].
  intros H. apply andb_true_iff in H. destruct H as [Ha Hs].
  now rewrite (alnum_not c a Hc Ha), (IH Hs).
Qed.

Lemma forallb_remove (p : ascii -> bool) (s : string) :
  (forall a, alnum_char a = true -> p a = false) ->
  Str.forallb alnum_char s = true -> Str.remove p s = s.
Proof.
  intros Hp. induction s as [|a s IH]; simpl; [reflexivity|].
  intros H. apply andb_true_iff in H. destruct H as [Ha Hs].
  now rewrite (Hp a Ha), (IH Hs).
Qed.

Lemma remove_append (p : ascii -> bool) (a b : string) :
  Str.remove p (a ++ b) = Str.remove p a ++ Str.remove p b.
Proof.
  induction a as [|x a IH]; simpl; [reflexivity|].
  destruct (p x); simpl; now rewrite IH.
Qed.

Lemma alnum_safe (a : ascii) :
  alnum_char a = true -> UrlParse.unsafe_byte a = false.
Proof.
  intros H. unfold UrlParse.unsafe_byte.
  unfold alnum_char, Str.is_digit, Str.is_lower, Str.is_upper in H.
  destruct (Z.eqb_spec (Str.code a) 9) as [E|_];
    [rewrite E in H; discriminate|].
  destruct (Z.eqb_spec (Str.code a) 13) as [E|_];
    [rewrite E in H; discriminate|].
  destruct (Z.eqb_spec (Str.code a) 10) as [E|_];
    [rewrite E in H; discriminate|].
  reflexivity.
Qed.

Lemma plain_id_parts (id : string) :
  plain_id id = true -> id <> "" /\ Str.forallb alnum_char id = true.
Proof.
  unfold plain_id. intros H. apply andb_true_iff in H.
  destruct H as [H1 H2]. apply negb_true_iff in H1.
  apply String.eqb_neq in H1. auto.
Qed.

Lemma plain_id_not_dots (id : string) :
  plain_id id = true -> String.eqb id ".." = false /\ String.eqb id "." = false.
Proof.
  intros H. destruct (plain_id_parts id H) as [_ F].
  pose proof (forallb_index "." id eq_refl F) as D.
  split; apply String.eqb_neq; intros E; subst; discriminate.
Qed.

Lemma plain_id_good (id : string) : plain_id id = true -> good_part id.
Proof.
  intros H. destruct (plain_id_parts id H) as [N F].
  destruct (plain_id_not_dots id H) as [_ D]. apply String.eqb_neq in D.
  split; [exact N|]. split; [exact D|]. now apply forallb_index.
Qed.

(** The endpoint of a path [/a/id/b] with a plain [id]: the final
    component gets the suffix and nothing else changes. *)
Lemma json_endpoint_plain (a id b : string) :
  good_part a -> plain_id id = true -> good_part b ->
  Pathlib.suffix_of b = "" ->
  json_endpoint ("/" ++ a ++ "/" ++ id ++ "/" ++ b)
  = Ok ("/" ++ a ++ "/" ++ id ++ "/" ++ b ++ ".json").
Proof.
  intros Ga Hid Gb Sb.
  set (p := Pathlib.mkpath "/" [a; id; b]).
  assert (Gp : good_path p).
  { split; [right; now left|]. simpl.
    constructor; [exact Ga|]. constructor; [now apply plain_id_good|].
    constructor; [exact Gb | constructor]. }
  assert (E : "/" ++ a ++ "/" ++ id ++ "/" ++ b = Pathlib.str p).
  { unfold Pathlib.str, p. simpl Pathlib.root. simpl Pathlib.parts.
    destruct Gb as [Nb _].
    change (Str.join "/" [a; id; b]) with (a ++ "/" ++ id ++ "/" ++ b).
    reflexivity. }
  unfold json_endpoint. rewrite E.
  rewrite (proj2 (Path_str p Gp ltac:(discriminate))), with_suffix_json.
  unfold p at 1. unfold Pathlib.name. simpl last.
  destruct Gb as [Nb _]. rewrite (eqb_empty_false b Nb). cbn [rbind].
  unfold new_name. rewrite Sb. cbn [String.eqb].
  unfold Pathlib.str, p. simpl. reflexivity.
Qed.

Lemma join_split (c : ascii) (s : string) :
  Str.join (String c "") (Str.split s c) = s.
Proof.
  unfold Str.join. induction s as [|a s IH]; [reflexivity|].
  simpl Str.split. pose proof (split_nonempty s c) as N.
  destruct (Ascii.eqb a c) eqn:E.
  - apply Ascii.eqb_eq in E; subst a.
    destruct (Str.split s c) as [|h t]; [contradiction|].
    simpl in *. now rewrite IH.
  - destruct (Str.split s c) as [|h t]; [contradiction|].
    destruct t; simpl in *; now rewrite <- IH.
Qed.

Lemma slice_to_prefix (s : string) (n : nat) :
  (n <= String.length s)%nat -> Str.slice_to s (Z.of_nat n) = Str.take n s.
Proof.
  intros H. unfold Str.slice_to. rewrite (bound_in_range s n H).
  now rewrite Nat2Z.id.
Qed.

(** [urlsplit] on a path that has no scheme, no netloc, no query and no
    fragment. *)
Lemma urlsplit_path (e : string) :
  Str.lstrip UrlParse.c0_control_or_space e = e ->
  Str.remove UrlParse.unsafe_byte e = e ->
  Str.index ":" e = None ->
  String.eqb (Str.slice_to e 2) "//" = false ->
  Str.index "#" e = None ->
  Str.index "?" e = None ->
  UrlParse.urlsplit e "https" = Ok (UrlParse.mksplit "https" "" e "" "").
Proof.
  intros H1 H2 H3 H4 H5 H6. unfold UrlParse.urlsplit.
  rewrite H1, H2.
  change (Str.remove UrlParse.unsafe_byte
            (Str.rstrip UrlParse.c0_control_or_space
               (Str.lstrip UrlParse.c0_control_or_space "https")))
    with "https".
  unfold Str.find. rewrite H3. cbn [Z.gtb Z.compare andb].
  rewrite H4. cbn [rbind]. unfold Str.contains. rewrite H5, H6.
  reflexivity.
Qed.

Lemma urlparse_path (e : string) :
  Str.lstrip UrlParse.c0_control_or_space e = e ->
  Str.remove UrlParse.unsafe_byte e = e ->
  Str.index ":" e = None ->
  String.eqb (Str.slice_to e 2) "//" = false ->
  Str.index "#" e = None ->
  Str.index "?" e = None ->
  Str.index ";" e = None ->
  UrlParse.urlparse e "https"
  = Ok (UrlParse.mkparse "https" "" e "" "" "").
Proof.
  intros H1 H2 H3 H4 H5 H6 H7. unfold UrlParse.urlparse.
  rewrite (urlsplit_path e H1 H2 H3 H4 H5 H6). cbn [rbind].
  cbn [UrlParse.s_scheme UrlParse.s_netloc UrlParse.s_path UrlParse.s_query
         UrlParse.s_fragment].
  unfold Str.contains. rewrite H7. rewrite andb_false_r. reflexivity.
Qed.

(** Joining an absolute path to the versioned base keeps the origin of
    the base and nothing of its path. *)
Lemma urljoin_absolute_path (e : string) (segs : list string) :
  Str.lstrip UrlParse.c0_control_or_space e = e ->
  Str.remove UrlParse.unsafe_byte e = e ->
  Str.index ":" e = None ->
  String.eqb (Str.slice_to e 2) "//" = false ->
  Str.index "#" e = None ->
  Str.index "?" e = None ->
  Str.index ";" e = None ->
  e <> "" ->
  Str.slice_to e 1 = "/" ->
  Str.split e "/" = segs ->
  UrlParse.resolve segs = segs ->
  String.eqb (last segs "") "." = false ->
  String.eqb (last segs "") ".." = false ->
  UrlParse.urljoin "https://api.jotform.com/v1" e
  = Ok ("https://api.jotform.com" ++ e).
Proof.
  intros H1 H2 H3 H4 H5 H6 H7 N S1 Sp R L1 L2.
  assert (B : UrlParse.urlparse "https://api.jotform.com/v1" ""
              = Ok (UrlParse.mkparse "https" "api.jotform.com" "/v1" "" "" ""))
    by (vm_compute; reflexivity).
  assert (J : Str.join "/" segs = e) by (rewrite <- Sp; apply join_split).
  assert (Ne : UrlParse.nonempty e = true)
    by (unfold UrlParse.nonempty; now rewrite (eqb_empty_false e N)).
  unfold UrlParse.urljoin.
  change (String.eqb "https://api.jotform.com/v1" "") with false.
  rewrite (eqb_empty_false e N), B. cbn [rbind UrlParse.scheme].
  rewrite (urlparse_path e H1 H2 H3 H4 H5 H6 H7). cbn [rbind].
  cbn [UrlParse.scheme UrlParse.netloc UrlParse.path UrlParse.params
         UrlParse.query UrlParse.fragment].
  change (negb (String.eqb "https" "https")
          || negb (UrlParse.member "https" UrlParse.uses_relative))
    with false.
  change (UrlParse.member "https" UrlParse.uses_netloc) with true.
  change (UrlParse.nonempty "") with false.
  cbn [andb negb orb]. rewrite Ne. cbn [andb negb].
  rewrite S1. change (String.eqb "/" "/") with true. cbv iota.
  rewrite Sp, R, L1, L2. cbn [orb]. rewrite J, Ne.
  unfold UrlParse.urlunparse. cbn [UrlParse.scheme UrlParse.netloc
    UrlParse.path UrlParse.params UrlParse.query UrlParse.fragment].
  change (UrlParse.nonempty "") with false. cbv iota.
  unfold UrlParse.urlunsplit. cbn [UrlParse.s_scheme UrlParse.s_netloc
    UrlParse.s_path UrlParse.s_query UrlParse.s_fragment].
  change (UrlParse.nonempty "api.jotform.com") with true.
  change (UrlParse.nonempty "https") with true.
  change (UrlParse.nonempty "") with false.
  cbn [orb]. rewrite Ne, S1.
  change (String.eqb "/" "/") with true. cbn [andb negb].
  reflexivity.
Qed.

(** The URL [get_form_questions] requests for a plain form ID. *)
Lemma request_url_questions (id : string) :
  plain_id id = true ->
  request_url ("/form/" ++ id ++ "/questions")
  = Ok ("https://api.jotform.com/form/" ++ id ++ "/questions.json").
Proof.
  intros Hid. destruct (plain_id_parts id Hid) as [N F].
  destruct (plain_id_not_dots id Hid) as [D2 D1].
  assert (V : UrlParse.urljoin base_url api_version
              = Ok "https://api.jotform.com/v1") by (vm_compute; reflexivity).
  assert (E : json_endpoint ("/form/" ++ id ++ "/questions")
              = Ok ("/form/" ++ id ++ "/questions.json")).
  { apply (json_endpoint_plain "form" id "questions").
    - split; [discriminate|]. split; [discriminate | reflexivity].
    - exact Hid.
    - split; [discriminate|]. split; [discriminate | reflexivity].
    - vm_compute; reflexivity. }
  unfold request_url. rewrite V, E. cbn [rbind].
  set (e := "/form/" ++ id ++ "/questions.json").
  assert (I : forall c, alnum_char c = false ->
                        Str.index c "/form/" = None ->
                        Str.index c "/questions.json" = None ->
                        Str.index c e = None).
  { intros c Hc A B. unfold e. apply index_append_none; [exact A|].
    apply index_append_none; [now apply forallb_index | exact B]. }
  assert (Len : (2 <= String.length e)%nat) by (unfold e; simpl; lia).
  change ("https://api.jotform.com/form/" ++ id ++ "/questions.json")
    with ("https://api.jotform.com" ++ e).
  apply (urljoin_absolute_path e [""; "form"; id; "questions.json"]).
  - reflexivity.
  - unfold e. rewrite !remove_append.
    rewrite (forallb_remove _ id alnum_safe F). reflexivity.
  - apply I; reflexivity.
  - change 2 with (Z.of_nat 2). rewrite slice_to_prefix by exact Len.
    reflexivity.
  - apply I; reflexivity.
  - apply I; reflexivity.
  - apply I; reflexivity.
  - discriminate.
  - change 1 with (Z.of_nat 1). rewrite slice_to_prefix by lia. reflexivity.
  - change e with (Str.join "/" [""; "form"; id; "questions.json"]).
    apply split_join; [discriminate|].
    repeat (constructor; [try reflexivity|]); [|constructor].
    now apply forallb_index.
  - unfold UrlParse.resolve. cbn [fold_left].
    change (String.eqb "" "..") with false.
    change (String.eqb "" ".") with false.
    change (String.eqb "form" "..") with false.
    change (String.eqb "form" ".") with false.
    change (String.eqb "questions.json" "..") with false.
    change (String.eqb "questions.json" ".") with false.
    cbv iota. rewrite D1, D2. reflexivity.
  - reflexivity.
  - reflexivity.
Qed.

(** C1 (the code departs from the claim).  For a form ID made of letters
    and digits [get_form_questions] issues exactly one request: a GET with
    the [apiKey] header and no parameters.  Its URL is the origin followed
    by the suffixed resource path, without the version segment: joining
    the endpoint, an absolute path, to the versioned base replaces the
    whole path of the base, [v1] included.  For ["123"] the request goes to
    [https://api.jotform.com/form/123/questions.json]. *)
Theorem get_form_questions_url_lacks_version :
  (UrlParse.urljoin base_url api_version = Ok "https://api.jotform.com/v1")
  /\ (forall (api_key debug : pyval) (t : transport),
         requests_of
           (trace (world_after (get_form_questions "123") t
                     (new_client api_key debug)))
         = [mkrequest (VStr "GET")
              "https://api.jotform.com/form/123/questions.json"
              [("apiKey", api_key)] VNone])
  /\ "https://api.jotform.com/form/123/questions.json"
     <> "https://api.jotform.com/v1/form/123/questions.json"
  /\ (forall (id : string) (api_key debug : pyval) (t : transport),
         plain_id id = true ->
         requests_of
           (trace (world_after (get_form_questions id) t
                     (new_client api_key debug)))
         = [mkrequest (VStr "GET")
              ("https://api.jotform.com/form/" ++ id ++ "/questions.json")
              [("apiKey", api_key)] VNone]).
Proof.
  assert (G : forall (id : string) (api_key debug : pyval) (t : transport),
             plain_id id = true ->
             requests_of
               (trace (world_after (get_form_questions id) t
                         (new_client api_key debug)))
             = [mkrequest (VStr "GET")
                  ("https://api.jotform.com/form/" ++ id ++ "/questions.json")
                  [("apiKey", api_key)] VNone]).
  { intros id api_key debug t Hid.
    unfold world_after, get_form_questions.
    rewrite (fetch_url_run _ VNone GET api_key debug t _
               (request_url_questions id Hid)).
    simpl. destruct (Py.truthy debug); reflexivity. }
  split; [vm_compute; reflexivity|].
  split; [intros; apply (G "123"); reflexivity|].
  split; [discriminate | exact G].
Qed.

Lemma get_form_questions_url_lacks_version_witness :
  requests_of
    (trace (world_after (get_form_questions "123")
              (fun _ => Raise (TransportError "offline"))
              (new_client (VStr "key") (VBool true))))
  = [mkrequest (VStr "GET")
       "https://api.jotform.com/form/123/questions.json"
       [("apiKey", VStr "key")] VNone].
Proof.
  apply (proj2 (proj2 (proj2 get_form_questions_url_lacks_version))
           "123" (VStr "key") (VBool true)
           (fun _ => Raise (TransportError "offline"))).
  reflexivity.
Defined.

(* ================================================================== *)
(** ** The client object *)
(* ================================================================== *)

Lemma preserves_ret {A : Type} (a : A) : preserves_self (ret a).
Proof. intros t w. reflexivity. Qed.

Lemma preserves_lift {A : Type} (r : result A) : preserves_self (lift r).
Proof. intros t w. reflexivity. Qed.

Lemma preserves_bind {A B : Type} (m : M A) (f : A -> M B) :
  preserves_self m -> (forall a, preserves_self (f a)) ->
  preserves_self (bind m f).
Proof.
  intros Hm Hf t w. unfold bind. specialize (Hm t w).
  destruct (m t w) as [[a|e] w']; simpl in *.
  - now rewrite Hf.
  - exact Hm.
Qed.

Lemma preserves_getattr (name : string) : preserves_self (getattr name).
Proof.
  intros t w. unfold getattr. destruct (Dict.get (self_dict w) name);
    reflexivity.
Qed.

Lemma preserves_logger_debug (message : pyval) :
  preserves_self (logger_debug message).
Proof. intros t w. reflexivity. Qed.

Lemma preserves_requests_request (method : pyval) (url : string)
  (headers : dict) (params : pyval) :
  preserves_self (requests_request method url headers params).
Proof. intros t w. reflexivity. Qed.

Lemma preserves_if {A : Type} (b : bool) (m1 m2 : M A) :
  preserves_self m1 -> preserves_self m2 ->
  preserves_self (if b then m1 else m2).
Proof. destruct b; auto. Qed.

Create HintDb frame.

Ltac frame_step :=
  match goal with
  | |- preserves_self (bind _ _) => apply preserves_bind; [|intros ?]
  | |- preserves_self (if _ then _ else _) => apply preserves_if
  | |- preserves_self _ => solve [auto with frame]
  end.

#[local] Hint Resolve preserves_ret preserves_lift preserves_getattr
  preserves_logger_debug preserves_requests_request : frame.

Lemma preserves_log (message : pyval) : preserves_self (log message).
Proof.
  unfold log. repeat frame_step.
Qed.

#[local] Hint Resolve preserves_log : frame.

Lemma preserves_fetch_url (url : string) (params method : pyval) :
  preserves_self (fetch_url url params method).
Proof.
  unfold fetch_url. repeat frame_step.
Qed.

#[local] Hint Resolve preserves_fetch_url : frame.

Lemma preserves_run (c : call) : preserves_self (run c).
Proof.
  destruct c; cbn [run];
    unfold get_user, get_usage, get_forms, get_submissions, get_subusers,
      get_folders, get_reports, get_settings, update_settings, get_history,
      get_form, get_form_questions, get_form_question, get_form_submissions,
      create_form_submission, create_form_submissions, get_form_files,
      get_form_webhooks, create_form_webhook, delete_form_webhook,
      get_submission, get_report, get_folder, get_form_properties,
      get_form_property, get_form_reports, create_report, delete_submission,
      edit_submission, clone_form, delete_form_question, create_form_question,
      create_form_questions, edit_form_question, set_form_properties,
      set_multiple_form_properties, create_form, create_forms, delete_form,
      register_user, login_user, logout_user, get_plan, delete_report;
    cbv zeta; repeat frame_step.
Qed.

(** C9.  No call of a public method changes the attributes of the client:
    after the call the object holds what it held before, whether the call
    returned or raised.  For a client fresh from its constructor these are
    [api_key] and [debug_mode] with the values given to the constructor,
    and nothing else. *)
Theorem client_configuration_unchanged :
  (forall (c : call) (t : transport) (w : world),
      self_dict (world_after (run c) t w) = self_dict w)
  /\ (forall (api_key debug : pyval) (c : call) (t : transport),
         self_dict (world_after (run c) t (new_client api_key debug))
         = [("api_key", api_key); ("debug_mode", debug)]).
Proof.
  split.
  - intros c t w. apply preserves_run.
  - intros api_key debug c t. unfold world_after.
    rewrite (preserves_run c t). reflexivity.
Qed.

(* ================================================================== *)
(** ** What a call does to the world *)
(* ================================================================== *)

Lemma requests_of_app (a b : list event) :
  requests_of (a ++ b)%list = (requests_of a ++ requests_of b)%list.
Proof.
  induction a as [|[m|r] a IH]; simpl; [reflexivity | exact IH |].
  now rewrite IH.
Qed.

Lemma logs_of_app (a b : list event) :
  logs_of (a ++ b)%list = (logs_of a ++ logs_of b)%list.
Proof.
  induction a as [|[m|r] a IH]; simpl; [reflexivity | | exact IH].
  now rewrite IH.
Qed.

(** [log] in closed form. *)
Lemma log_eq (message : pyval) (t : transport) (w : world) :
  log message t w
  = match Dict.get (self_dict w) "debug_mode" with
    | None => (Raise AttributeError, w)
    | Some d =>
        (Ok tt,
         mkworld (self_dict w)
           (trace w ++ (if Py.truthy d then [LogDebug message] else []))%list)
    end.
Proof.
  destruct w as [sd tr]. cbv [log bind getattr logger_debug ret].
  simpl self_dict. simpl trace.
  destruct (Dict.get sd "debug_mode") as [d|]; [|reflexivity].
  destruct (Py.truthy d); [reflexivity | now rewrite app_nil_r].
Qed.

(** [fetch_url] in closed form, from any state of the client: what it
    returns, what it logs and what it sends. *)
Lemma fetch_url_eq (url : string) (params method : pyval) (t : transport)
  (w : world) :
  fetch_url url params method t w
  = match request_url url with
    | Raise e => (Raise e, w)
    | Ok u =>
        match Dict.get (self_dict w) "debug_mode" with
        | None => (Raise AttributeError, w)
        | Some d =>
            let logs :=
              if Py.truthy d
              then LogDebug (VStr ("fetching url " ++ u))
                     :: (if Py.truthy params then [LogDebug params] else [])
              else [] in
            match Dict.get (self_dict w) "api_key" with
            | None =>
                (Raise AttributeError,
                 mkworld (self_dict w) (trace w ++ logs)%list)
            | Some k =>
                let req := mkrequest method u [("apiKey", k)] params in
                ((resp <- t req ;;
                  json_response <- json resp ;;
                  Py.get_method json_response "content")%result,
                 mkworld (self_dict w)
                   (trace w ++ logs ++ [HttpRequest req])%list)
            end
        end
    end.
Proof.
  destruct w as [sd tr].
  unfold fetch_url. unfold bind at 1. unfold lift at 1.
  destruct (request_url url) as [u|e]; [|reflexivity].
  unfold bind at 1. rewrite log_eq. simpl self_dict. simpl trace.
  destruct (Dict.get sd "debug_mode") as [d|] eqn:D; [|reflexivity].
  unfold bind at 1.
  assert (L : forall tr',
             (if Py.truthy params then log params else ret tt) t
               (mkworld sd tr')
             = (Ok tt,
                mkworld sd
                  (tr' ++ (if Py.truthy d && Py.truthy params
                           then [LogDebug params] else []))%list)).
  { intros tr'. destruct (Py.truthy params).
    - rewrite log_eq. simpl self_dict. rewrite D. simpl trace.
      now rewrite andb_true_r.
    - rewrite andb_false_r. unfold ret. now rewrite app_nil_r. }
  rewrite L. unfold bind at 1. unfold getattr. simpl self_dict.
  assert (E : ((tr ++ (if Py.truthy d
                       then [LogDebug (VStr ("fetching url " ++ u))]
                       else []))
                 ++ (if Py.truthy d && Py.truthy params
                     then [LogDebug params] else []))%list
              = (tr ++ (if Py.truthy d
                        then LogDebug (VStr ("fetching url " ++ u))
                               :: (if Py.truthy params
                                   then [LogDebug params] else [])
                        else []))%list).
  { destruct (Py.truthy d), (Py.truthy params); simpl;
      rewrite <- ?app_assoc, ?app_nil_r; reflexivity. }
  rewrite E. cbv zeta.
  destruct (Dict.get sd "api_key") as [k|]; [|reflexivity].
  cbv [bind requests_request lift]. simpl self_dict. simpl trace.
  rewrite <- app_assoc.
  destruct (t _) as [resp|e]; [|reflexivity].
  cbn [rbind]. destruct (json resp) as [j|e]; [|reflexivity].
  cbn [rbind]. destruct (Py.get_method j "content"); reflexivity.
Qed.

(** Every public method is a call of [fetch_url], fails before it, returns
    a computed value, or only logs. *)
Lemma run_cases (c : call) :
  (network_call c = true
   /\ exists url params method, run c = fetch_url url params method)
  \/ (network_call c = true /\ exists e, run c = lift (Raise e))
  \/ (network_call c = false /\ exists v, run c = ret v)
  \/ (network_call c = false
      /\ exists m, run c = (log m ;;; ret VNone)%M).
Proof.
  destruct c; cbn [run network_call];
    unfold get_user, get_usage, get_forms, get_submissions, get_subusers,
      get_folders, get_reports, get_settings, update_settings, get_history,
      get_form, get_form_questions, get_form_question, get_form_submissions,
      create_form_submission, create_form_submissions, get_form_files,
      get_form_webhooks, create_form_webhook, delete_form_webhook,
      get_submission, get_report, get_folder, get_form_properties,
      get_form_property, get_form_reports, create_report, delete_submission,
      edit_submission, clone_form, delete_form_question, create_form_question,
      create_form_questions, edit_form_question, set_form_properties,
      set_multiple_form_properties, create_form, create_forms, delete_form,
      register_user, login_user, logout_user, get_plan, delete_report;
    cbv zeta;
    match goal with
    | |- (_ /\ exists url params method,
               fetch_url ?u ?p ?m = fetch_url url params method) \/ _ =>
        left; split; [reflexivity | exists u, p, m; reflexivity]
    | |- (_ /\ exists url params method,
               bind (lift ?r) _ = fetch_url url params method) \/ _ =>
        destruct r as [sub|e];
        [left; split; [reflexivity | eexists _, (VDict sub), _; reflexivity]
        | right; left; split; [reflexivity | exists e; reflexivity]]
    | |- _ \/ _ \/ (_ /\ exists v, ret ?x = ret v) \/ _ =>
        right; right; left; split; [reflexivity | exists x; reflexivity]
    | |- _ \/ _ \/ _ \/ (_ /\ exists m, bind (log ?x) _ = _) =>
        right; right; right; split; [reflexivity | exists x; reflexivity]
    end.
Qed.

Lemma requests_of_logs (d params : pyval) (u : string) :
  requests_of
    (if Py.truthy d
     then LogDebug (VStr ("fetching url " ++ u))
            :: (if Py.truthy params then [LogDebug params] else [])
     else [])
  = [].
Proof. destruct (Py.truthy d), (Py.truthy params); reflexivity. Qed.

Lemma request_url_without_name (url : string) :
  Pathlib.name (Pathlib.Path url) = "" ->
  request_url url = Raise (ValueError "has an empty name").
Proof.
  intros H. unfold request_url.
  assert (V : UrlParse.urljoin base_url api_version
              = Ok "https://api.jotform.com/v1") by (vm_compute; reflexivity).
  rewrite V. cbn [rbind]. unfold json_endpoint.
  rewrite with_suffix_json, H. reflexivity.
Qed.

(** A resource path without a final component (the empty string, ['/'],
    ['.'], ['//']...) makes [fetch_url] raise a [ValueError] before
    anything is logged or sent.  Only the class of the exception is
    stated: the model does not reproduce the text of the message. *)
Theorem fetch_url_rejects_path_without_name :
  forall (url : string) (params method : pyval) (t : transport) (w : world),
    Pathlib.name (Pathlib.Path url) = "" ->
    exists message,
      fetch_url url params method t w = (Raise (ValueError message), w).
Proof.
  intros url params method t w H. eexists.
  now rewrite fetch_url_eq, (request_url_without_name url H).
Qed.

Lemma fetch_url_rejects_path_without_name_witness :
  exists message,
    fetch_url "/" VNone GET (fun _ => Raise (TransportError "offline"))
      (new_client (VStr "key") (VBool true))
    = (Raise (ValueError message), new_client (VStr "key") (VBool true)).
Proof.
  apply (fetch_url_rejects_path_without_name "/" VNone GET). reflexivity.
Defined.

(** [fetch_url] handles no error: an exception of the transport, or of
    decoding the body, comes out as it is, and a decoded body that is not
    an object makes [.get] raise [AttributeError].  In each case the
    request has been sent. *)
Theorem fetch_url_propagates_errors :
  forall (url : string) (params method api_key debug : pyval)
         (t : transport) (u : string),
    request_url url = Ok u ->
    requests_of
      (trace (world_after (fetch_url url params method) t
                (new_client api_key debug)))
    = [mkrequest method u [("apiKey", api_key)] params]
    /\ (forall e,
           t (mkrequest method u [("apiKey", api_key)] params) = Raise e ->
           result_of (fetch_url url params method) t
             (new_client api_key debug) = Raise e)
    /\ (forall e,
           t (mkrequest method u [("apiKey", api_key)] params)
           = Ok (mkresponse (Raise e)) ->
           result_of (fetch_url url params method) t
             (new_client api_key debug) = Raise e)
    /\ (forall v,
           t (mkrequest method u [("apiKey", api_key)] params)
           = Ok (mkresponse (Ok v)) ->
           (forall d, v <> VDict d) ->
           result_of (fetch_url url params method) t
             (new_client api_key debug) = Raise AttributeError).
Proof.
  intros url params method api_key debug t u U.
  unfold result_of, world_after. rewrite (fetch_url_run _ _ _ _ _ _ _ U).
  cbn [fst snd trace].
  split; [|split; [|split]].
  - rewrite requests_of_app, requests_of_logs. reflexivity.
  - intros e E. now rewrite E.
  - intros e E. now rewrite E.
  - intros v E N. rewrite E. cbn [rbind json].
    destruct v; try reflexivity. now contradiction (N l).
Qed.

Lemma fetch_url_propagates_errors_witness :
  result_of (fetch_url "/user" VNone GET)
    (fun _ => Ok (mkresponse (Ok (VList []))))
    (new_client (VStr "key") (VBool false))
  = Raise AttributeError.
Proof.
  apply (proj2 (proj2 (proj2
           (fetch_url_propagates_errors "/user" VNone GET (VStr "key")
              (VBool false) (fun _ => Ok (mkresponse (Ok (VList []))))
              "https://api.jotform.com/user.json"
              ltac:(vm_compute; reflexivity))))
           (VList [])).
  - reflexivity.
  - discriminate.
Defined.

(** The events one call of [fetch_url] adds, and how many requests are
    among them. *)
Lemma fetch_url_events (url : string) (params method : pyval)
  (t : transport) (w : world) :
  exists evs,
    trace (snd (fetch_url url params method t w)) = (trace w ++ evs)%list
    /\ (length (requests_of evs) <= 1)%nat
    /\ ((exists v, fst (fetch_url url params method t w) = Ok v) ->
        length (requests_of evs) = 1%nat)
    /\ (forall k, Dict.get (self_dict w) "api_key" = Some k ->
                  forall req, In req (requests_of evs) ->
                              r_headers req = [("apiKey", k)])
    /\ (forall d, Dict.get (self_dict w) "debug_mode" = Some d ->
                  Py.truthy d = false -> logs_of evs = []).
Proof.
  rewrite fetch_url_eq.
  destruct (request_url url) as [u|e].
  2:{ exists []. rewrite app_nil_r. simpl.
      split; [reflexivity|]. split; [lia|].
      split; [intros [v H]; discriminate|].
      split; [intros k _ req [] | intros; reflexivity]. }
  destruct (Dict.get (self_dict w) "debug_mode") as [d|] eqn:D.
  2:{ exists []. rewrite app_nil_r. simpl.
      split; [reflexivity|]. split; [lia|].
      split; [intros [v H]; discriminate|].
      split; [intros k _ req [] | intros; reflexivity]. }
  cbv zeta.
  destruct (Dict.get (self_dict w) "api_key") as [k|] eqn:K.
  - eexists. split; [reflexivity|].
    rewrite requests_of_app, requests_of_logs. simpl.
    split; [lia|]. split; [reflexivity|]. split.
    + intros k' Hk req [H|[]]. inversion Hk; subst. reflexivity.
    + intros d' Hd Ht. inversion Hd; subst d'.
      rewrite logs_of_app, Ht. reflexivity.
  - eexists. split; [reflexivity|]. rewrite requests_of_logs. simpl.
    split; [lia|]. split; [intros [v H]; discriminate|]. split.
    + intros k' Hk. discriminate.
    + intros d' Hd Ht. inversion Hd; subst d'. now rewrite Ht.
Qed.

Lemma log_events (message : pyval) (t : transport) (w : world) :
  exists evs,
    trace (snd ((log message ;;; ret VNone)%M t w)) = (trace w ++ evs)%list
    /\ requests_of evs = []
    /\ (forall d, Dict.get (self_dict w) "debug_mode" = Some d ->
                  Py.truthy d = false -> logs_of evs = []).
Proof.
  unfold bind. rewrite log_eq.
  destruct (Dict.get (self_dict w) "debug_mode") as [d|].
  - unfold ret. simpl. eexists. split; [reflexivity|]. split.
    + destruct (Py.truthy d); reflexivity.
    + intros d' Hd Ht. inversion Hd; subst. now rewrite Ht.
  - exists []. simpl. rewrite app_nil_r. split; [reflexivity|].
    split; [reflexivity|]. intros d' Hd; discriminate.
Qed.

(** What any call adds to the trace. *)
Lemma run_events (c : call) (t : transport) (w : world) :
  exists evs,
    trace (snd (run c t w)) = (trace w ++ evs)%list
    /\ (length (requests_of evs) <= 1)%nat
    /\ (network_call c = false -> requests_of evs = [])
    /\ (network_call c = true -> (exists v, fst (run c t w) = Ok v) ->
        length (requests_of evs) = 1%nat)
    /\ (forall k, Dict.get (self_dict w) "api_key" = Some k ->
                  forall req, In req (requests_of evs) ->
                              r_headers req = [("apiKey", k)])
    /\ (forall d, Dict.get (self_dict w) "debug_mode" = Some d ->
                  Py.truthy d = false -> logs_of evs = []).
Proof.
  destruct (run_cases c)
    as [(N & url & params & method & E)
       |[(N & e & E)|[(N & v & E)|(N & m & E)]]]; rewrite E.
  - destruct (fetch_url_events url params method t w)
      as (evs & H1 & H2 & H3 & H4 & H5).
    exists evs. split; [exact H1|]. split; [exact H2|].
    split; [rewrite N; discriminate|]. split; [intros _; exact H3|].
    split; assumption.
  - exists []. simpl. rewrite app_nil_r. split; [reflexivity|].
    split; [lia|]. split; [reflexivity|].
    split; [intros _ [v H]; discriminate|].
    split; [intros k _ req [] | intros; reflexivity].
  - exists []. simpl. rewrite app_nil_r. split; [reflexivity|].
    split; [lia|]. split; [reflexivity|].
    split; [rewrite N; discriminate|].
    split; [intros k _ req [] | intros; reflexivity].
  - destruct (log_events m t w) as (evs & H1 & H2 & H3).
    exists evs. split; [exact H1|]. rewrite H2. simpl.
    split; [lia|]. split; [reflexivity|].
    split; [rewrite N; discriminate|].
    split; [intros k _ req [] | exact H3].
Qed.

(** Every call of a public method only appends to the trace and sends at
    most one request; [log] and the two static helpers send none, and any
    other call that returns a value has sent exactly one. *)
Theorem call_sends_at_most_one_request :
  forall (c : call) (t : transport) (w : world),
    exists evs,
      trace (world_after (run c) t w) = (trace w ++ evs)%list
      /\ (length (requests_of evs) <= 1)%nat
      /\ (network_call c = false -> requests_of evs = [])
      /\ (network_call c = true ->
          (exists v, result_of (run c) t w = Ok v) ->
          length (requests_of evs) = 1%nat).
Proof.
  intros c t w.
  destruct (run_events c t w) as (evs & H1 & H2 & H3 & H4 & _).
  exists evs. unfold world_after, result_of. auto.
Qed.

Lemma call_sends_at_most_one_request_witness :
  exists evs,
    trace (world_after (run (Create_conditions VNone VNone VNone VNone))
             (fun _ => Raise (TransportError "offline"))
             (new_client (VStr "key") (VBool true)))
    = (trace (new_client (VStr "key") (VBool true)) ++ evs)%list
    /\ requests_of evs = [].
Proof.
  destruct (call_sends_at_most_one_request
              (Create_conditions VNone VNone VNone VNone)
              (fun _ => Raise (TransportError "offline"))
              (new_client (VStr "key") (VBool true)))
    as (evs & H1 & _ & H3 & _).
  exists evs. split; [exact H1 | exact (H3 eq_refl)].
Defined.

(** Every request a constructed client sends, whatever the call, carries
    exactly one header: [apiKey], with the key given to the constructor. *)
Theorem every_request_carries_the_api_key :
  forall (api_key debug : pyval) (c : call) (t : transport) (req : request),
    In req
      (requests_of
         (trace (world_after (run c) t (new_client api_key debug)))) ->
    r_headers req = [("apiKey", api_key)].
Proof.
  intros api_key debug c t req H. unfold world_after in H.
  destruct (run_events c t (new_client api_key debug))
    as (evs & H1 & _ & _ & _ & H5 & _).
  rewrite H1 in H. simpl in H. exact (H5 api_key eq_refl req H).
Qed.

Lemma every_request_carries_the_api_key_witness :
  r_headers
    (mkrequest DELETE "https://api.jotform.com/report/7.json"
       [("apiKey", VStr "key")] VNone)
  = [("apiKey", VStr "key")].
Proof.
  apply (every_request_carries_the_api_key (VStr "key") (VBool false)
           (Delete_report "7") (fun _ => Raise (TransportError "offline"))).
  vm_compute. left. reflexivity.
Defined.

(** With the debug flag off no call logs anything; with the flag on,
    [fetch_url] logs the URL and then the parameters, if they are true,
    before it sends the request, so the records are there even when the
    transport fails. *)
Theorem logging_follows_the_debug_flag :
  (forall (api_key debug : pyval) (c : call) (t : transport),
      Py.truthy debug = false ->
      logs_of (trace (world_after (run c) t (new_client api_key debug))) = [])
  /\ (forall (url : string) (params method api_key debug : pyval)
             (t : transport) (u : string),
         Py.truthy debug = true ->
         request_url url = Ok u ->
         trace (world_after (fetch_url url params method) t
                  (new_client api_key debug))
         = (LogDebug (VStr ("fetching url " ++ u))
              :: (if Py.truthy params then [LogDebug params] else [])
              ++ [HttpRequest
                    (mkrequest method u [("apiKey", api_key)] params)])%list).
Proof.
  split.
  - intros api_key debug c t H. unfold world_after.
    destruct (run_events c t (new_client api_key debug))
      as (evs & H1 & _ & _ & _ & _ & H6).
    rewrite H1. simpl. exact (H6 debug eq_refl H).
  - intros url params method api_key debug t u D U. unfold world_after.
    rewrite (fetch_url_run _ _ _ _ _ _ _ U). cbn [snd trace].
    now rewrite D.
Qed.

Lemma logging_follows_the_debug_flag_witness :
  logs_of
    (trace (world_after (run (Get_form "1"))
              (fun _ => Raise (TransportError "offline"))
              (new_client (VStr "key") (VBool false))))
  = [].
Proof.
  apply (proj1 logging_follows_the_debug_flag (VStr "key") (VBool false)
           (Get_form "1") (fun _ => Raise (TransportError "offline"))).
  reflexivity.
Defined.

Lemma log_blind_fetch_url (url : string) (params method : pyval) :
  log_blind (fetch_url url params method).
Proof.
  intros t w1 w2 (A & D & R). rewrite !fetch_url_eq.
  destruct (request_url url) as [u|e];
    [|split; [reflexivity | now split]].
  destruct (Dict.get (self_dict w1) "debug_mode") as [d1|] eqn:D1;
    destruct (Dict.get (self_dict w2) "debug_mode") as [d2|] eqn:D2.
  - cbv zeta. rewrite <- A.
    destruct (Dict.get (self_dict w1) "api_key") as [k|] eqn:K.
    + split; [reflexivity|].
      split; [cbn [snd self_dict]; rewrite K; exact A|].
      split; [cbn [snd self_dict]; rewrite D1, D2; split; discriminate|].
      cbn [snd trace].
      rewrite !requests_of_app, !requests_of_logs. simpl. now rewrite R.
    + split; [reflexivity|].
      split; [cbn [snd self_dict]; rewrite K; exact A|].
      split; [cbn [snd self_dict]; rewrite D1, D2; split; discriminate|].
      cbn [snd trace].
      rewrite !requests_of_app, !requests_of_logs. now rewrite R.
  - destruct D as [_ D]. specialize (D eq_refl). discriminate.
  - destruct D as [D _]. specialize (D eq_refl). discriminate.
  - split; [reflexivity|]. split; [exact A|].
    split; [cbn [snd]; rewrite D1, D2; tauto | exact R].
Qed.

Lemma log_blind_log (message : pyval) :
  log_blind (log message ;;; ret VNone)%M.
Proof.
  intros t w1 w2 (A & D & R). unfold bind. rewrite !log_eq.
  destruct (Dict.get (self_dict w1) "debug_mode") as [d1|] eqn:D1;
    destruct (Dict.get (self_dict w2) "debug_mode") as [d2|] eqn:D2.
  - unfold ret. split; [reflexivity|]. split; [exact A|].
    split; [cbn [snd self_dict]; rewrite D1, D2; split; discriminate|].
    cbn [snd trace]. rewrite !requests_of_app, R.
    destruct (Py.truthy d1), (Py.truthy d2); reflexivity.
  - destruct D as [_ D]. specialize (D eq_refl). discriminate.
  - destruct D as [D _]. specialize (D eq_refl). discriminate.
  - split; [reflexivity|]. split; [exact A|].
    split; [cbn [snd]; rewrite D1, D2; tauto | exact R].
Qed.

Lemma log_blind_run (c : call) : log_blind (run c).
Proof.
  destruct (run_cases c)
    as [(N & url & params & method & E)
       |[(N & e & E)|[(N & v & E)|(N & m & E)]]]; rewrite E.
  - apply log_blind_fetch_url.
  - intros t w1 w2 H. split; [reflexivity | exact H].
  - intros t w1 w2 H. split; [reflexivity | exact H].
  - apply log_blind_log.
Qed.

(** The debug flag changes nothing but the log: two clients built with
    the same key and different flags get the same result from every call
    and send the same requests. *)
Theorem debug_flag_only_affects_the_log :
  forall (c : call) (t : transport) (api_key debug1 debug2 : pyval),
    result_of (run c) t (new_client api_key debug1)
    = result_of (run c) t (new_client api_key debug2)
    /\ requests_of (trace (world_after (run c) t (new_client api_key debug1)))
       = requests_of
           (trace (world_after (run c) t (new_client api_key debug2))).
Proof.
  intros c t api_key debug1 debug2.
  assert (S : same_but_log (new_client api_key debug1)
                (new_client api_key debug2)).
  { split; [reflexivity|]. split; [split; discriminate | reflexivity]. }
  destruct (log_blind_run c t _ _ S) as (H1 & _ & _ & H2).
  split; [exact H1 | exact H2].
Qed.

(* ================================================================== *)
(** ** More on the submission loops *)
(* ================================================================== *)

(** For a submission without a [created_at] key the loop of
    [create_form_submission] and the loop of [edit_submission] have the
    same outcome: the guard on [created_at] is the only difference between
    them. *)
Theorem submission_loops_agree_without_created_at :
  forall (submission : dict),
    ~ In "created_at" (Dict.keys submission) ->
    create_form_submission_sub submission = edit_submission_sub submission.
Proof.
  intros submission N. unfold create_form_submission_sub, edit_submission_sub.
  apply for_ext_in. intros key sub Hk.
  assert (E : String.eqb key "created_at" = false).
  { apply String.eqb_neq. intros H; subst. contradiction. }
  rewrite E. simpl negb. now rewrite andb_true_r.
Qed.

Lemma submission_loops_agree_without_created_at_witness :
  create_form_submission_sub [("3_first", VStr "Jane"); ("4", VStr "a@b.c")]
  = edit_submission_sub [("3_first", VStr "Jane"); ("4", VStr "a@b.c")].
Proof.
  apply (submission_loops_agree_without_created_at
           [("3_first", VStr "Jane"); ("4", VStr "a@b.c")]).
  simpl. intros [H|[H|[]]]; discriminate.
Defined.

(** A key without an underscore is wrapped whole, as [submission[key]],
    by both loops, and so is [created_at] by [edit_submission]; the
    parameter holds the value of the key unless another key of the
    submission is given the same name. *)
Theorem submission_key_without_underscore_kept_whole :
  forall (submission : dict) (key : string) (v : pyval),
    Dict.wf submission ->
    Dict.get submission key = Some v ->
    (Str.contains "_" key = false ->
     exists sub,
       create_form_submission_sub submission = Ok sub
       /\ In ("submission[" ++ key ++ "]") (Dict.keys sub)
       /\ ((forall key', In key' (Dict.keys submission) ->
                         create_form_submission_name key'
                         = create_form_submission_name key ->
                         key' = key) ->
           Dict.get sub ("submission[" ++ key ++ "]") = Some v))
    /\ (Str.contains "_" key = false \/ key = "created_at" ->
        exists sub,
          edit_submission_sub submission = Ok sub
          /\ In ("submission[" ++ key ++ "]") (Dict.keys sub)
          /\ ((forall key', In key' (Dict.keys submission) ->
                            edit_submission_name key'
                            = edit_submission_name key ->
                            key' = key) ->
              Dict.get sub ("submission[" ++ key ++ "]") = Some v)).
Proof.
  intros submission key v W G. split.
  - intros C.
    assert (E : create_form_submission_name key = "submission[" ++ key ++ "]")
      by (unfold create_form_submission_name; now rewrite C).
    eexists. split; [apply (create_form_submission_sub_eq _ W)|].
    rewrite <- E. apply renamed_lookup; assumption.
  - intros C.
    assert (E : edit_submission_name key = "submission[" ++ key ++ "]").
    { unfold edit_submission_name. destruct C as [C|C].
      - now rewrite C.
      - subst key. reflexivity. }
    eexists. split; [apply (edit_submission_sub_eq _ W)|].
    rewrite <- E. apply renamed_lookup; assumption.
Qed.

Lemma submission_key_without_underscore_kept_whole_witness :
  exists sub,
    edit_submission_sub [("created_at", VStr "2020-01-01")] = Ok sub
    /\ In ("submission[" ++ "created_at" ++ "]") (Dict.keys sub)
    /\ ((forall key', In key' (Dict.keys [("created_at", VStr "2020-01-01")]) ->
                      edit_submission_name key'
                      = edit_submission_name "created_at" ->
                      key' = "created_at") ->
        Dict.get sub ("submission[" ++ "created_at" ++ "]")
        = Some (VStr "2020-01-01")).
Proof.
  apply (proj2 (submission_key_without_underscore_kept_whole
                  [("created_at", VStr "2020-01-01")] "created_at"
                  (VStr "2020-01-01")
                  (proj1 (wfb_wf [("created_at", VStr "2020-01-01")])
                     eq_refl)
                  eq_refl)).
  right. reflexivity.
Defined.

Lemma index_append_none_inv (c : ascii) (a b : string) :
  Str.index c (a ++ b) = None ->
  Str.index c a = None /\ Str.index c b = None.
Proof.
  induction a as [|x a IH]; simpl; [auto|].
  destruct (Ascii.eqb x c); [discriminate|].
  destruct (Str.index c (a ++ b)) eqn:E; [discriminate|].
  intros _. destruct (IH eq_refl) as [H1 H2]. now rewrite H1.
Qed.

(** A text cut at the first [c]: equal wholes have equal parts. *)
Lemma append_at_fresh_inj (c : ascii) (a1 a2 b1 b2 : string) :
  Str.index c a1 = None -> Str.index c a2 = None ->
  a1 ++ String c b1 = a2 ++ String c b2 -> a1 = a2 /\ b1 = b2.
Proof.
  intros H1 H2 E.
  pose proof (index_append_fresh c a1 b1 H1) as I1.
  pose proof (index_append_fresh c a2 b2 H2) as I2.
  rewrite E in I1. rewrite I1 in I2. inversion I2 as [L].
  assert (A : a1 = a2).
  { rewrite <- (take_append a1 (String c b1)),
            <- (take_append a2 (String c b2)). now rewrite E, L. }
  subst a2. apply append_inv_head in E. inversion E. auto.
Qed.

(** On keys without square brackets the names the loops compute are
    pairwise distinct, whether or not a key is split. *)
Lemma flat_name_injective (s1 s2 : bool) (k1 k2 : string) :
  (s1 = true -> Str.contains "_" k1 = true) ->
  (s2 = true -> Str.contains "_" k2 = true) ->
  bracket_free k1 = true -> bracket_free k2 = true ->
  (if s1
   then "submission[" ++ Str.slice k1 0 (Str.find k1 "_")
        ++ "][" ++ Str.slice k1 (Str.find k1 "_" + 1) (Str.len k1) ++ "]"
   else "submission[" ++ k1 ++ "]")
  = (if s2
     then "submission[" ++ Str.slice k2 0 (Str.find k2 "_")
          ++ "][" ++ Str.slice k2 (Str.find k2 "_" + 1) (Str.len k2) ++ "]"
     else "submission[" ++ k2 ++ "]") ->
  k1 = k2.
Proof.
  intros C1 C2 B1 B2.
  assert (F : forall k, bracket_free k = true -> Str.index "]" k = None).
  { intros k B. unfold bracket_free, Str.contains in B.
    apply andb_true_iff in B. destruct B as [_ B].
    destruct (Str.index "]" k); [discriminate | reflexivity]. }
  pose proof (F k1 B1) as F1. pose proof (F k2 B2) as F2.
  assert (P : forall k before after,
             k = before ++ "_" ++ after -> Str.index "]" k = None ->
             Str.index "]" before = None).
  { intros k b a E Hk. subst k.
    now destruct (index_append_none_inv _ _ _ Hk). }
  destruct s1, s2.
  - destruct (first_underscore k1 (C1 eq_refl))
      as (b1 & a1 & E1 & _ & S1 & T1).
    destruct (first_underscore k2 (C2 eq_refl))
      as (b2 & a2 & E2 & _ & S2 & T2).
    rewrite S1, T1, S2, T2. intros H. apply append_inv_head in H.
    destruct (append_at_fresh_inj "]" b1 b2 _ _
                (P k1 b1 a1 E1 F1) (P k2 b2 a2 E2 F2) H) as [Hb Ha].
    inversion Ha as [Ha']. apply append_inv_tail in Ha'. congruence.
  - destruct (first_underscore k1 (C1 eq_refl))
      as (b1 & a1 & E1 & _ & S1 & T1).
    rewrite S1, T1. intros H. apply append_inv_head in H.
    destruct (append_at_fresh_inj "]" b1 k2 _ _ (P k1 b1 a1 E1 F1) F2 H)
      as [_ Ha].
    discriminate.
  - destruct (first_underscore k2 (C2 eq_refl))
      as (b2 & a2 & E2 & _ & S2 & T2).
    rewrite S2, T2. intros H. apply append_inv_head in H.
    destruct (append_at_fresh_inj "]" k1 b2 _ _ F1 (P k2 b2 a2 E2 F2) H)
      as [_ Ha].
    discriminate.
  - intros H. apply append_inv_head in H. now apply append_inv_tail in H.
Qed.

Lemma renamed_exactly (d : dict) (nm : string -> string) :
  Dict.wf d ->
  (forall k1 k2, In k1 (Dict.keys d) -> In k2 (Dict.keys d) ->
                 nm k1 = nm k2 -> k1 = k2) ->
  Dict.update [] (map (fun kv => (nm (fst kv), snd kv)) d)
  = map (fun kv => (nm (fst kv), snd kv)) d.
Proof.
  intros W Inj. apply (update_fresh _ []). simpl.
  unfold Dict.keys. rewrite map_map. simpl.
  unfold Dict.wf, Dict.keys in W.
  induction d as [|[k v] d IH]; simpl; [constructor|].
  inversion W as [|x l Hn Hd]; subst. constructor.
  - intros H. apply in_map_iff in H. destruct H as ([k' v'] & E & Hk').
    simpl in E.
    assert (k' = k).
    { apply Inj; [right | left; reflexivity | exact E].
      change k' with (fst (k', v')). now apply in_map. }
    subst k'. apply Hn.
    change k with (fst (k, v')). now apply in_map.
  - apply IH; [assumption|]. intros k1 k2 K1 K2. apply Inj; now right.
Qed.

Lemma submission_loops_exact :
  forall (submission : dict),
    Dict.wf submission ->
    (forall key, In key (Dict.keys submission) -> bracket_free key = true) ->
    create_form_submission_sub submission
    = Ok (map (fun kv => (create_form_submission_name (fst kv), snd kv))
            submission)
    /\ edit_submission_sub submission
       = Ok (map (fun kv => (edit_submission_name (fst kv), snd kv))
               submission).
Proof.
  intros submission W B. split.
  - rewrite (create_form_submission_sub_eq _ W). f_equal.
    apply renamed_exactly; [exact W|].
    intros k1 k2 H1 H2. unfold create_form_submission_name.
    apply flat_name_injective; auto.
  - rewrite (edit_submission_sub_eq _ W). f_equal.
    apply renamed_exactly; [exact W|].
    intros k1 k2 H1 H2. unfold edit_submission_name.
    apply flat_name_injective; auto;
      intros H; apply andb_true_iff in H; tauto.
Qed.

(** When no key of the submission contains a square bracket, nothing is
    lost or merged: both loops return one parameter per key, in the order
    of the keys, each with the value of its key. *)
Theorem submission_flattening_keeps_every_entry :
  forall (submission : dict),
    Dict.wf submission ->
    (forall key, In key (Dict.keys submission) -> bracket_free key = true) ->
    create_form_submission_sub submission
    = Ok (map (fun kv => (create_form_submission_name (fst kv), snd kv))
            submission)
    /\ edit_submission_sub submission
       = Ok (map (fun kv => (edit_submission_name (fst kv), snd kv))
               submission).
Proof. exact submission_loops_exact. Qed.

Lemma submission_flattening_keeps_every_entry_witness :
  create_form_submission_sub
    [("3_first", VStr "Jane"); ("3_last", VStr "Doe"); ("4", VStr "a@b.c")]
  = Ok [("submission[3][first]", VStr "Jane");
        ("submission[3][last]", VStr "Doe");
        ("submission[4]", VStr "a@b.c")].
Proof.
  apply (proj1 (submission_flattening_keeps_every_entry
                  [("3_first", VStr "Jane"); ("3_last", VStr "Doe");
                   ("4", VStr "a@b.c")]
                  (proj1 (wfb_wf
                            [("3_first", VStr "Jane"); ("3_last", VStr "Doe");
                             ("4", VStr "a@b.c")]) eq_refl)
                  ltac:(simpl; intros key [H|[H|[H|[]]]]; subst;
                        reflexivity))).
Defined.

(* ================================================================== *)
(** ** The URL of every endpoint *)
(* ================================================================== *)

Lemma forallb_append (p : ascii -> bool) (a b : string) :
  Str.forallb p (a ++ b) = Str.forallb p a && Str.forallb p b.
Proof.
  induction a as [|x a IH]; simpl; [reflexivity|].
  now rewrite IH, andb_assoc.
Qed.

Lemma forallb_weaken (p q : ascii -> bool) (s : string) :
  (forall a, p a = true -> q a = true) ->
  Str.forallb p s = true -> Str.forallb q s = true.
Proof.
  intros H. induction s as [|x s IH]; simpl; [reflexivity|].
  intros E. apply andb_true_iff in E. destruct E as [E1 E2].
  now rewrite (H x E1), (IH E2).
Qed.

Lemma forallb_no_index (q : ascii -> bool) (c : ascii) (s : string) :
  q c = false -> Str.forallb q s = true -> Str.index c s = None.
Proof.
  intros Hc. induction s as [|a s IH]; simpl; [reflexivity|].
  intros H. apply andb_true_iff in H. destruct H as [Ha Hs].
  destruct (Ascii.eqb a c) eqn:E.
  - apply Ascii.eqb_eq in E. congruence.
  - now rewrite (IH Hs).
Qed.

Lemma forallb_no_remove (q p : ascii -> bool) (s : string) :
  (forall a, q a = true -> p a = false) ->
  Str.forallb q s = true -> Str.remove p s = s.
Proof.
  intros Hp. induction s as [|a s IH]; simpl; [reflexivity|].
  intros H. apply andb_true_iff in H. destruct H as [Ha Hs].
  now rewrite (Hp a Ha), (IH Hs).
Qed.

Lemma forallb_join (q : ascii -> bool) (l : list string) :
  q "/"%char = true ->
  Forall (fun s => Str.forallb q s = true) l ->
  Str.forallb q (Str.join "/" l) = true.
Proof.
  intros Hq H. induction H as [|x l Hx Hl IH]; [reflexivity|].
  destruct l as [|y l]; [exact Hx|].
  change (Str.join "/" (x :: y :: l))
    with (x ++ String "/" (Str.join "/" (y :: l))).
  rewrite forallb_append, Hx. cbn [Str.forallb andb]. now rewrite Hq, IH.
Qed.

Lemma path_char_safe (a : ascii) :
  path_char a = true -> UrlParse.unsafe_byte a = false.
Proof.
  unfold path_char. intros H.
  apply orb_true_iff in H. destruct H as [H|H].
  - apply orb_true_iff in H. destruct H as [H|H].
    + now apply alnum_safe.
    + apply Ascii.eqb_eq in H. now subst.
  - apply Ascii.eqb_eq in H. now subst.
Qed.

Lemma suffix_of_plain (s : string) :
  plain_id s = true -> Pathlib.suffix_of s = "".
Proof.
  intros H. destruct (plain_id_parts s H) as [_ F].
  unfold Pathlib.suffix_of, Str.rfind.
  rewrite (rindex_none _ _ (forallb_index Pathlib.dot s eq_refl F)).
  reflexivity.
Qed.

Lemma join_snoc_append (sep : string) (init : list string) (x y : string) :
  Str.join sep (init ++ [(x ++ y)%string])%list
  = Str.join sep (init ++ [x])%list ++ y.
Proof.
  unfold Str.join. induction init as [|a init IH]; [reflexivity|].
  simpl. destruct init as [|b init].
  - simpl. now rewrite !append_assoc.
  - simpl in *. rewrite IH. now rewrite !append_assoc.
Qed.

(** Without ['.'] and ['..'] segments there is nothing to resolve. *)
Lemma resolve_plain (l : list string) :
  Forall (fun s => String.eqb s ".." = false /\ String.eqb s "." = false) l ->
  UrlParse.resolve l = l.
Proof.
  unfold UrlParse.resolve. intros H.
  enough (G : forall acc,
             fold_left
               (fun resolved_path seg =>
                  if String.eqb seg ".." then removelast resolved_path
                  else if String.eqb seg "." then resolved_path
                       else (resolved_path ++ [seg])%list)
               l acc = (acc ++ l)%list) by apply (G []).
  induction H as [|x l [H1 H2] Hl IH]; intros acc; simpl.
  - now rewrite app_nil_r.
  - rewrite H1, H2, IH. now rewrite <- app_assoc.
Qed.

Lemma request_url_plain :
  forall (segs : list string),
    segs <> [] ->
    forallb plain_id segs = true ->
    request_url (resource_path segs)
    = Ok ("https://api.jotform.com" ++ resource_path segs ++ ".json").
Proof.
  intros segs N P. rewrite forallb_forall in P.
  set (lst := last segs "").
  assert (S : segs = (removelast segs ++ [lst])%list)
    by now apply app_removelast_last.
  assert (Pl : plain_id lst = true)
    by (apply P; rewrite S; apply in_or_app; right; now left).
  assert (Pi : forall x, In x (removelast segs) -> plain_id x = true)
    by (intros x Hx; apply P; rewrite S; apply in_or_app; now left).
  destruct (plain_id_parts lst Pl) as [Nl Fl].
  (* the endpoint *)
  set (p := Pathlib.mkpath "/" segs).
  assert (Gp : good_path p).
  { split; [right; now left|]. simpl. apply Forall_forall.
    intros x Hx. apply plain_id_good. now apply P. }
  assert (E : json_endpoint (resource_path segs)
              = Ok (resource_path segs ++ ".json")).
  { change (resource_path segs) with (Pathlib.str p) at 1.
    unfold json_endpoint.
    rewrite (proj2 (Path_str p Gp N)), with_suffix_json.
    change (Pathlib.name p) with lst.
    rewrite (eqb_empty_false lst Nl). cbn [rbind]. unfold new_name.
    rewrite (suffix_of_plain lst Pl). cbn [String.eqb].
    unfold Pathlib.str, p. cbn [Pathlib.root Pathlib.parts].
    rewrite join_snoc_append, <- S. reflexivity. }
  assert (V : UrlParse.urljoin base_url api_version
              = Ok "https://api.jotform.com/v1") by (vm_compute; reflexivity).
  unfold request_url. rewrite V, E. cbn [rbind].
  (* the join *)
  set (e := resource_path segs ++ ".json").
  set (segs2 := (removelast segs ++ [(lst ++ ".json")%string])%list).
  assert (N2 : segs2 <> [])
    by (unfold segs2; intros H; apply app_eq_nil in H;
        destruct H; discriminate).
  assert (J : e = Str.join "/" ("" :: segs2)).
  { unfold e, resource_path, segs2.
    change ("" :: removelast segs ++ [(lst ++ ".json")%string])%list
      with (("" :: removelast segs) ++ [(lst ++ ".json")%string])%list.
    rewrite join_snoc_append.
    change (("" :: removelast segs) ++ [lst])%list
      with ("" :: (removelast segs ++ [lst]))%list.
    rewrite <- S. destruct segs; [contradiction | reflexivity]. }
  assert (C : Str.forallb path_char e = true).
  { unfold e, resource_path. rewrite !forallb_append.
    rewrite forallb_join; [reflexivity | reflexivity |].
    apply Forall_forall. intros x Hx.
    destruct (plain_id_parts x (P x Hx)) as [_ F].
    apply (forallb_weaken alnum_char); [|exact F].
    intros a Ha. unfold path_char. now rewrite Ha. }
  assert (H2 : exists a r, e = String "/" (String a r) /\ alnum_char a = true).
  { unfold e, resource_path. destruct segs as [|x l]; [contradiction|].
    destruct (plain_id_parts x (P x (or_introl eq_refl))) as [Nx Fx].
    destruct x as [|a x]; [contradiction|].
    destruct (join_head a x l) as [r Hr]. rewrite Hr.
    simpl in Fx. apply andb_true_iff in Fx.
    exists a, (r ++ ".json"). split; [reflexivity | tauto]. }
  destruct H2 as (a & r & He & Ha).
  assert (Len : (2 <= String.length e)%nat) by (rewrite He; simpl; lia).
  assert (LL : last ("" :: segs2) "" = lst ++ ".json").
  { unfold segs2.
    change ("" :: removelast segs ++ [(lst ++ ".json")%string])%list
      with (("" :: removelast segs) ++ [(lst ++ ".json")%string])%list.
    apply last_last. }
  apply (urljoin_absolute_path e ("" :: segs2)).
  - rewrite He. reflexivity.
  - apply (forallb_no_remove path_char); [apply path_char_safe | exact C].
  - apply (forallb_no_index path_char); [reflexivity | exact C].
  - change 2 with (Z.of_nat 2). rewrite slice_to_prefix by exact Len.
    rewrite He. simpl. now rewrite (alnum_not "/" a eq_refl Ha).
  - apply (forallb_no_index path_char); [reflexivity | exact C].
  - apply (forallb_no_index path_char); [reflexivity | exact C].
  - apply (forallb_no_index path_char); [reflexivity | exact C].
  - rewrite He. discriminate.
  - change 1 with (Z.of_nat 1). rewrite slice_to_prefix by lia.
    rewrite He. reflexivity.
  - rewrite J. apply split_join; [discriminate|].
    constructor; [reflexivity|]. unfold segs2. apply Forall_app. split.
    + apply Forall_forall. intros x Hx.
      destruct (plain_id_good x (Pi x Hx)) as (_ & _ & H). exact H.
    + constructor; [|constructor].
      destruct (plain_id_good lst Pl) as (_ & _ & H).
      now apply index_append_none.
  - apply resolve_plain. constructor; [split; reflexivity|].
    unfold segs2. apply Forall_app. split.
    + apply Forall_forall. intros x Hx. apply plain_id_not_dots. auto.
    + constructor; [|constructor].
      split; apply String.eqb_neq; intros H;
        apply (f_equal String.length) in H;
        rewrite length_append in H; simpl in H; lia.
  - rewrite LL. apply String.eqb_neq. intros H.
    apply (f_equal String.length) in H.
    rewrite length_append in H; simpl in H; lia.
  - rewrite LL. apply String.eqb_neq. intros H.
    apply (f_equal String.length) in H.
    rewrite length_append in H; simpl in H; lia.
Qed.

(** For a resource path of plain segments, as every endpoint of the
    client with plain IDs has, the request goes to the origin followed by
    the path and the suffix; the version segment is not part of the
    URL. *)
Theorem request_url_of_plain_path :
  forall (segs : list string),
    segs <> [] ->
    forallb plain_id segs = true ->
    request_url (resource_path segs)
    = Ok ("https://api.jotform.com" ++ resource_path segs ++ ".json").
Proof. exact request_url_plain. Qed.

Lemma request_url_of_plain_path_witness :
  request_url (resource_path ["form"; "42"; "question"; "7"])
  = Ok ("https://api.jotform.com"
        ++ resource_path ["form"; "42"; "question"; "7"] ++ ".json").
Proof.
  apply (request_url_of_plain_path ["form"; "42"; "question"; "7"]);
    [discriminate | vm_compute; reflexivity].
Defined.

(* ================================================================== *)
(** ** Forms of the wrong shape *)
(* ================================================================== *)

Lemma create_form_loop_raises (form l : dict) (key : string) (v : pyval)
  (params : dict) :
  (forall kv, In kv l -> Dict.get form (fst kv) = Some (snd kv)) ->
  In (key, v) l ->
  not_iterable v = true ->
  exists e,
    for_ (Dict.keys l)
      (fun key params =>
         (value <- Dict.getitem form key ;;
          ks <- Py.iter value ;;
          for_ ks
            (fun k params =>
               if String.eqb key "properties"
               then create_form_properties key value params
               else create_form_field key value k params)
            params)%result)
      params
    = Raise e.
Proof.
  revert params; induction l as [|[k0 v0] l IH]; intros params G Hin Hv.
  - destruct Hin.
  - simpl Dict.keys. simpl for_.
    pose proof (G (k0, v0) (or_introl eq_refl)) as G0. simpl in G0.
    unfold Dict.getitem at 1. rewrite G0. cbn [rbind].
    destruct Hin as [Hin|Hin].
    + inversion Hin; subst.
      exists TypeError. destruct v; try discriminate; reflexivity.
    + match goal with
      | |- exists e, match ?b with _ => _ end = _ => destruct b as [p|e]
      end.
      * apply IH; auto. intros kv Hkv. apply G. now right.
      * exists e. reflexivity.
Qed.

(** A form with a group that is [None], a boolean or a number cannot be
    flattened: [create_form] raises and nothing is logged or sent. *)
Theorem create_form_rejects_group_that_is_not_iterable :
  forall (form : dict) (key : string) (v : pyval) (t : transport) (w : world),
    Dict.wf form ->
    In (key, v) form ->
    not_iterable v = true ->
    exists e,
      create_form_params form = Raise e
      /\ create_form form t w = (Raise e, w).
Proof.
  intros form key v t w W Hin Hv.
  destruct (create_form_loop_raises form form key v []) as [e E]; auto.
  { intros [k x] H. now apply get_wf_in. }
  assert (E' : create_form_params form = Raise e) by exact E.
  exists e. split; [exact E'|].
  unfold create_form. rewrite E'. reflexivity.
Qed.

Lemma create_form_rejects_group_that_is_not_iterable_witness :
  exists e,
    create_form_params
      [("properties", VDict [("title", VStr "T")]); ("questions", VNone)]
    = Raise e
    /\ create_form
         [("properties", VDict [("title", VStr "T")]); ("questions", VNone)]
         (fun _ => Raise (TransportError "offline"))
         (new_client (VStr "key") (VBool true))
       = (Raise e, new_client (VStr "key") (VBool true)).
Proof.
  apply (create_form_rejects_group_that_is_not_iterable
           [("properties", VDict [("title", VStr "T")]); ("questions", VNone)]
           "questions" VNone).
  - apply wfb_wf. reflexivity.
  - right. left. reflexivity.
  - reflexivity.
Defined.

(* ================================================================== *)
(** ** Submission calls, end to end *)
(* ================================================================== *)

(** With a plain ID and a submission whose keys have no square bracket,
    [create_form_submission] and [edit_submission] each send exactly one
    POST request, to [/form/<id>/submissions.json] and to
    [/submission/<id>.json] of the origin, whose parameters are the
    flattened submission: one parameter per key, in order, with the value
    of the key. *)
Theorem submission_calls_send_the_flattened_submission :
  forall (id : string) (submission : dict) (api_key debug : pyval)
         (t : transport),
    plain_id id = true ->
    Dict.wf submission ->
    (forall key, In key (Dict.keys submission) -> bracket_free key = true) ->
    requests_of
      (trace (world_after (create_form_submission id submission) t
                (new_client api_key debug)))
    = [mkrequest POST
         ("https://api.jotform.com/form/" ++ id ++ "/submissions.json")
         [("apiKey", api_key)]
         (VDict (map (fun kv => (create_form_submission_name (fst kv), snd kv))
                   submission))]
    /\ requests_of
         (trace (world_after (edit_submission id submission) t
                   (new_client api_key debug)))
       = [mkrequest POST
            ("https://api.jotform.com/submission/" ++ id ++ ".json")
            [("apiKey", api_key)]
            (VDict (map (fun kv => (edit_submission_name (fst kv), snd kv))
                      submission))].
Proof.
  intros id submission api_key debug t Hid W B.
  destruct (submission_loops_exact submission W B)
    as [E1 E2].
  assert (U1 : request_url ("/form/" ++ id ++ "/submissions")
               = Ok ("https://api.jotform.com/form/" ++ id
                     ++ "/submissions.json")).
  { change ("/form/" ++ id ++ "/submissions")
      with (resource_path ["form"; id; "submissions"]).
    rewrite request_url_plain;
      [|discriminate | simpl; rewrite Hid; reflexivity].
    f_equal. unfold resource_path. simpl.
    now rewrite append_assoc. }
  assert (U2 : request_url ("/submission/" ++ id)
               = Ok ("https://api.jotform.com/submission/" ++ id ++ ".json")).
  { change ("/submission/" ++ id) with (resource_path ["submission"; id]).
    rewrite request_url_plain;
      [|discriminate | simpl; rewrite Hid; reflexivity].
    reflexivity. }
  unfold world_after, create_form_submission, edit_submission.
  rewrite E1, E2. split.
  - match goal with
    | |- context [bind (lift (Ok ?x)) ?f] =>
        change (bind (lift (Ok x)) f) with (f x)
    end.
    cbv beta. rewrite (fetch_url_run _ _ _ _ _ _ _ U1). cbn [snd trace].
    now rewrite requests_of_app, requests_of_logs.
  - match goal with
    | |- context [bind (lift (Ok ?x)) ?f] =>
        change (bind (lift (Ok x)) f) with (f x)
    end.
    cbv beta. rewrite (fetch_url_run _ _ _ _ _ _ _ U2). cbn [snd trace].
    now rewrite requests_of_app, requests_of_logs.
Qed.

Lemma submission_calls_send_the_flattened_submission_witness :
  requests_of
    (trace (world_after
              (create_form_submission "123"
                 [("name_first", VStr "Jane"); ("email", VStr "a@b.com")])
              (fun _ => Raise (TransportError "offline"))
              (new_client (VStr "key") (VBool false))))
  = [mkrequest POST "https://api.jotform.com/form/123/submissions.json"
       [("apiKey", VStr "key")]
       (VDict [("submission[name][first]", VStr "Jane");
               ("submission[email]", VStr "a@b.com")])].
Proof.
  apply (proj1 (submission_calls_send_the_flattened_submission "123"
                  [("name_first", VStr "Jane"); ("email", VStr "a@b.com")]
                  (VStr "key") (VBool false)
                  (fun _ => Raise (TransportError "offline"))
                  eq_refl
                  (proj1 (wfb_wf [("name_first", VStr "Jane");
                                  ("email", VStr "a@b.com")]) eq_refl)
                  ltac:(simpl; intros key [H|[H|[]]]; subst; reflexivity))).
Defined.
